(** * Alyx Tax Manager: the OAuth authentication worker

    A shallow embedding of [workers/auth-worker/src/index.ts] and the
    properties of its five endpoints.

    The worker is one request handler in front of a key-value namespace
    ([env.TOKENS]) and Google's token endpoint.  The embedding keeps the
    source's functions and names.  Effects are explicit: a handler is a
    function from a [World] (the namespace, an event trace, the clock and the
    random source) to a completion and a new world, and a JavaScript
    exception is the [Thrown] completion. *)

From Stdlib Require Import ZArith Ascii String.
From stdpp Require Import base option list strings gmap fin_maps pretty.

Local Open Scope string_scope.
Local Open Scope Z_scope.

(** ** Strings as the source uses them *)

Module Js.

(** Truthiness of a [string | null] value: [null] and the empty string are
    falsy. *)
Definition truthy (v : option string) : bool :=
  match v with
  | Some s => negb (String.eqb s "")
  | None => false
  end.

(** [a || b] on strings. *)
Definition or_else (v : option string) (d : string) : string :=
  match v with
  | Some s => if String.eqb s "" then d else s
  | None => d
  end.

(** The string held by a value that has passed a truthiness test (the
    narrowing of [string | null] to [string]). *)
Definition narrowed (v : option string) : string :=
  match v with
  | Some s => s
  | None => ""
  end.

(** [Array.prototype.includes] on an array of strings. *)
Definition includes (l : list string) (x : string) : bool :=
  bool_decide (x ∈ l).

(** [String.prototype.split] with a one-character separator: the result
    always has at least one element. *)
Fixpoint split (sep : ascii) (s : string) : list string :=
  match s with
  | EmptyString => [EmptyString]
  | String c r =>
      if Ascii.eqb c sep then EmptyString :: split sep r
      else match split sep r with
           | x :: xs => String c x :: xs
           | [] => [String c EmptyString]
           end
  end.

Fixpoint trimStart (s : string) : string :=
  match s with
  | String c r => if Ascii.is_space c then trimStart r else s
  | EmptyString => EmptyString
  end.

(** [String.prototype.trim], on the ASCII white space characters. *)
Definition trim (s : string) : string :=
  String.rev (trimStart (String.rev (trimStart s))).

(** [arr[0]] of an array that is known to be non-empty. *)
Definition first (l : list string) : string :=
  match l with
  | x :: _ => x
  | [] => EmptyString
  end.

(** [s.startsWith(p) ? s.slice(p.length) : null]. *)
Fixpoint strip_prefix (p s : string) : option string :=
  match p, s with
  | EmptyString, _ => Some s
  | String a p', String b s' =>
      if Ascii.eqb a b then strip_prefix p' s' else None
  | String _ _, EmptyString => None
  end.

(** The longest prefix matched by the character class [[^;]]. *)
Fixpoint span_not_semicolon (s : string) : string :=
  match s with
  | EmptyString => EmptyString
  | String c r =>
      if Ascii.eqb c ";" then EmptyString
      else String c (span_not_semicolon r)
  end.

(** One attempt of [/session=([^;]+)/] at the start of [s]: the capture
    group, or [None] when the pattern does not match here. *)
Definition match_session_here (s : string) : option string :=
  match strip_prefix "session=" s with
  | Some rest =>
      let v := span_not_semicolon rest in
      if String.eqb v "" then None else Some v
  | None => None
  end.

(** [s.match(/session=([^;]+)/)]: the regular expression is not anchored,
    so the attempt is repeated from every position, left to right, and
    the first success wins.  The result is capture group 1. *)
Fixpoint match_session (s : string) : option string :=
  match match_session_here s with
  | Some v => Some v
  | None =>
      match s with
      | EmptyString => None
      | String _ r => match_session r
      end
  end.

Definition hex_digit (n : N) : ascii :=
  match n with
  | 0 => "0" | 1 => "1" | 2 => "2" | 3 => "3" | 4 => "4" | 5 => "5"
  | 6 => "6" | 7 => "7" | 8 => "8" | 9 => "9" | 10 => "a" | 11 => "b"
  | 12 => "c" | 13 => "d" | 14 => "e" | _ => "f"
  end%N%char.

Definition hex_byte (b : N) (rest : string) : string :=
  String (hex_digit (N.shiftr b 4 mod 16)) (String (hex_digit (b mod 16)) rest).

Fixpoint hex_bytes (bs : list N) (rest : string) : string :=
  match bs with
  | [] => rest
  | b :: bs' => hex_byte b (hex_bytes bs' rest)
  end.

End Js.

(** ** Data model *)

(** [interface Env].  The [TOKENS] binding is the mutable namespace; it
    lives in the [World] below. *)
Record Env := {
  GOOGLE_CLIENT_ID : string;
  GOOGLE_CLIENT_SECRET : string;
  ALLOWED_ORIGINS : string
}.

(** [interface TokenData]: the session record. *)
Record TokenData := {
  refresh_token : string;
  created : Z
}.

(** [interface GoogleTokenResponse].  The provider answers with the token
    fields or with the error fields, so every field is optional at run
    time. *)
Record GoogleTokenResponse := {
  access_token : option string;
  expires_in : option Z;
  tokens_refresh_token : option string;
  token_type : option string;
  tokens_error : option string;
  error_description : option string
}.

(** A parsed request URL: [url.origin], [url.pathname] and the query
    pairs in order ([url.searchParams]). *)
Record URL := {
  origin : string;
  pathname : string;
  searchParams : list (string * string)
}.

(** [URLSearchParams.get]: the first value stored under the name. *)
Fixpoint searchParams_get (ps : list (string * string)) (name : string)
  : option string :=
  match ps with
  | [] => None
  | (k, v) :: ps' => if String.eqb k name then Some v else searchParams_get ps' name
  end.

(** A request: the method, the parsed [request.url] and the headers, as
    a map from the names the worker asks for ([Origin], [Referer],
    [Cookie]) to what [request.headers.get] returns. *)
Record Request := {
  method : string;
  url : URL;
  request_headers : gmap string string
}.

Definition headers_get (request : Request) (name : string) : option string :=
  request_headers request !! name.

Inductive JsonValue :=
| JString (s : string)
| JNumber (n : Z)
| JBool (b : bool).

(** A response body: [null], a plain string, or the object handed to
    [JSON.stringify], as its properties in order. *)
Inductive Body :=
| NoBody
| Text (s : string)
| Json (props : list (string * JsonValue)).

Record Response := {
  status : Z;
  body : Body;
  headers : gmap string string
}.

(** [JSON.stringify] leaves out the properties whose value is
    [undefined]. *)
Definition json_object (props : list (string * option JsonValue)) : Body :=
  Json (omap (λ p, match p.2 with Some v => Some (p.1, v) | None => None end) props).

(** The body of a request to the token endpoint, by grant. *)
Inductive TokenRequest :=
| AuthorizationCodeGrant (code client_id client_secret redirect_uri : string)
| RefreshTokenGrant (refresh client_id client_secret : string).

Inductive Exn :=
| TypeError (what : string)
| UpstreamFailure (what : string).

Inductive Completion (A : Type) :=
| Normal (a : A)
| Thrown (e : Exn).
Arguments Normal {A} a.
Arguments Thrown {A} e.

(** A value stored in the namespace with the options of its [put].  The
    worker stores [JSON.stringify(tokenData)] and reads it back with
    [JSON.parse], which gives the same [TokenData]: the namespace holds the
    record itself.  A record that has outlived its TTL is gone from the
    namespace when the next request arrives. *)
Record KVEntry := {
  kv_value : TokenData;
  expirationTtl : Z
}.

Inductive Event :=
| KVGet (key : string)
| KVPut (key : string) (entry : KVEntry)
| KVDelete (key : string)
| TokenEndpoint (req : TokenRequest)
| ConsoleError (label : string).

Record World := {
  TOKENS : gmap string KVEntry;
  trace : list Event;
  now : Z;
  draws : nat
}.

Definition set_TOKENS (f : gmap string KVEntry → gmap string KVEntry) (w : World) : World :=
  {| TOKENS := f (TOKENS w); trace := trace w; now := now w; draws := draws w |}.

Definition log (ev : Event) (w : World) : World :=
  {| TOKENS := TOKENS w; trace := trace w ++ [ev]; now := now w; draws := draws w |}.

Definition next_draw (w : World) : World :=
  {| TOKENS := TOKENS w; trace := trace w; now := now w; draws := S (draws w) |}.

(** ** The platform

    What the Workers runtime and the provider supply, and the source only
    calls.  [url_origin s] is [new URL(s).origin], [None] when the
    constructor throws its [TypeError]; [url_href s] is the serialised URL
    that [Response.redirect] puts in [Location] (the worker only redirects
    to an allow-list entry followed by a fixed query, which the operator
    configures to be a URL); [urlencoded] is the query string that
    [URLSearchParams] serialises; [token_endpoint] is the JSON answer of
    [https://oauth2.googleapis.com/token], or the exception of a failed
    [fetch] or [json()]; [getRandomValues d i] is byte [i] of the [d]-th
    draw of the random source behind [crypto.randomUUID]. *)
Class Platform := {
  url_origin : string → option string;
  url_href : string → string;
  encodeURIComponent : string → string;
  urlencoded : list (string * string) → string;
  token_endpoint : TokenRequest → Completion GoogleTokenResponse;
  getRandomValues : nat → nat → N
}.

(** ** State and exceptions *)

Definition M (A : Type) : Type := World → Completion A * World.

Definition ret {A} (a : A) : M A := λ w, (Normal a, w).

Definition bind {A B} (m : M A) (k : A → M B) : M B :=
  λ w, match m w with
       | (Normal a, w') => k a w'
       | (Thrown e, w') => (Thrown e, w')
       end.

Notation "x <- m ;; k" := (bind m (λ x, k))
  (at level 100, m at next level, right associativity).
Notation "m ;;; k" := (bind m (λ _, k))
  (at level 100, right associativity).

(** A call of a function that has no effect besides throwing. *)
Definition lift {A} (c : Completion A) : M A := λ w, (c, w).

(** [try { m } catch (error) { h error }]. *)
Definition try_catch {A} (m : M A) (h : Exn → M A) : M A :=
  λ w, match m w with
       | (Normal a, w') => (Normal a, w')
       | (Thrown e, w') => h e w'
       end.

(** A promise that has settled: fulfilled with a value or rejected with an
    exception. *)
Definition Promise (A : Type) : Type := Completion A.

(** Calling an [async function]: the body runs, and whatever it does, the
    call itself completes normally with a promise; an exception of the body
    is the rejection of that promise. *)
Definition async {A} (body : M A) : M (Promise A) :=
  λ w, match body w with (c, w') => (Normal c, w') end.

(** [await p]. *)
Definition await {A} (p : Promise A) : M A := lift p.

(** What a [return] statement of an [async function] hands over: a plain
    value, or a promise that the function's own promise then follows. *)
Inductive Returned (A : Type) :=
| Value (a : A)
| Thenable (p : Promise A).
Arguments Value {A} a.
Arguments Thenable {A} p.

Definition resolve {A} (r : Returned A) : M A :=
  match r with
  | Value a => ret a
  | Thenable p => await p
  end.

(** ** The namespace, the provider, the console, the clock *)

Definition TOKENS_get (key : string) : M (option TokenData) :=
  λ w, (Normal (kv_value <$> TOKENS w !! key), log (KVGet key) w).

Definition TOKENS_put (key : string) (value : TokenData) (ttl : Z) : M unit :=
  λ w, let entry := {| kv_value := value; expirationTtl := ttl |} in
       (Normal tt, log (KVPut key entry) (set_TOKENS (insert key entry) w)).

Definition TOKENS_delete (key : string) : M unit :=
  λ w, (Normal tt, log (KVDelete key) (set_TOKENS (delete key) w)).

Definition console_error (label : string) : M unit :=
  λ w, (Normal tt, log (ConsoleError label) w).

Definition Date_now : M Z := λ w, (Normal (now w), w).

(** ** The worker *)

Definition GOOGLE_SCOPES : string := "https://www.googleapis.com/auth/drive.appdata".

Definition SESSION_MAX_AGE : Z := 60 * 60 * 24 * 30.

(** [getAllowedOrigins]: [env.ALLOWED_ORIGINS.split(',').map(o => o.trim())]. *)
Definition getAllowedOrigins (env : Env) : list string :=
  map Js.trim (Js.split "," (ALLOWED_ORIGINS env)).

(** [getSessionId]. *)
Definition getSessionId (request : Request) : option string :=
  let cookie := Js.or_else (headers_get request "Cookie") "" in
  Js.match_session cookie.

(** [buildSessionCookie]. *)
Definition buildSessionCookie (sessionId : string) (maxAge : Z) : string :=
  let parts := [
    "session=" +:+ sessionId;
    "HttpOnly";
    "Secure";
    "SameSite=None";
    "Max-Age=" +:+ pretty maxAge;
    "Path=/"
  ] in
  match parts with
  | [] => ""
  | p :: ps => foldl (λ acc x, acc +:+ "; " +:+ x) p ps
  end.

(** The template [`${url.origin}/auth/callback`], the redirect URI
    registered with the provider. *)
Definition callback_uri (url : URL) : string :=
  origin url +:+ "/auth/callback".

Section Worker.

Context `{Platform}.

(** [crypto.randomUUID()]: sixteen random bytes with the version and the
    variant bits of a version 4 identifier, written in hexadecimal in the
    8-4-4-4-12 layout. *)
Definition crypto_randomUUID : M string :=
  λ w, let b i := (getRandomValues (draws w) i mod 256)%N in
       let b6 := N.lor (N.land (b 6%nat) 15) 64 in
       let b8 := N.lor (N.land (b 8%nat) 63) 128 in
       let s :=
         Js.hex_bytes [b 0%nat; b 1%nat; b 2%nat; b 3%nat] (String "-"
         (Js.hex_bytes [b 4%nat; b 5%nat] (String "-"
         (Js.hex_bytes [b6; b 7%nat] (String "-"
         (Js.hex_bytes [b8; b 9%nat] (String "-"
         (Js.hex_bytes [b 10%nat; b 11%nat; b 12%nat; b 13%nat; b 14%nat; b 15%nat]
            "")))))))) in
       (Normal s, next_draw w).

(** [await fetch('https://oauth2.googleapis.com/token', ...)] followed by
    [await tokenResponse.json()]. *)
Definition fetch_token (req : TokenRequest) : M GoogleTokenResponse :=
  λ w, (token_endpoint req, log (TokenEndpoint req) w).

(** [new URL(s).origin]. *)
Definition new_URL_origin (s : string) : Completion string :=
  match url_origin s with
  | Some o => Normal o
  | None => Thrown (TypeError "Invalid URL")
  end.

(** [Response.redirect(url, 302)]. *)
Definition Response_redirect (target : string) (code : Z) : Response :=
  {| status := code; body := NoBody; headers := {[ "Location" := url_href target ]} |}.

(** [getRequestOrigin].  [after_origin] is what the function does below
    its first [if]. *)
Definition getRequestOrigin (request : Request) (env : Env) : Completion string :=
  let origin := headers_get request "Origin" in
  let allowedOrigins := getAllowedOrigins env in
  let after_origin :=
    (* For redirects (no Origin header), check Referer *)
    let referer := headers_get request "Referer" in
    let default := Normal (Js.first allowedOrigins) in
    match referer with
    | Some referer =>
        if Js.truthy (Some referer) then
          match new_URL_origin referer with
          | Thrown e => Thrown e
          | Normal refererOrigin =>
              if Js.includes allowedOrigins refererOrigin
              then Normal refererOrigin
              else default
          end
        else default
    | None => default
    end in
  match origin with
  | Some origin =>
      if Js.truthy (Some origin) && Js.includes allowedOrigins origin
      then Normal origin
      else after_origin
  | None => after_origin
  end.

(** [corsResponse].  The object spread puts [extraHeaders] last, so its
    keys win. *)
Definition corsResponse (request : Request) (env : Env) (status : Z)
    (body : option (list (string * option JsonValue)))
    (extraHeaders : gmap string string) : Completion Response :=
  match getRequestOrigin request env with
  | Thrown e => Thrown e
  | Normal origin =>
      Normal {|
        status := status;
        body := match body with Some b => json_object b | None => NoBody end;
        headers := extraHeaders ∪ list_to_map [
          ("Access-Control-Allow-Origin", origin);
          ("Access-Control-Allow-Credentials", "true");
          ("Access-Control-Allow-Methods", "GET, POST, OPTIONS");
          ("Access-Control-Allow-Headers", "Content-Type");
          ("Content-Type", "application/json")
        ]
      |}
  end.

(** The constant [authUrl] of [handleLogin]: Google's authorization
    endpoint with the query that the seven [searchParams.set] calls
    build. *)
Definition authUrl (env : Env) (url : URL) (origin : string) : string :=
  "https://accounts.google.com/o/oauth2/v2/auth?" +:+ urlencoded [
    ("client_id", GOOGLE_CLIENT_ID env);
    ("redirect_uri", callback_uri url);
    ("response_type", "code");
    ("scope", GOOGLE_SCOPES);
    ("access_type", "offline");
    ("prompt", "consent");
    ("state", origin)
  ].

(** [handleLogin], an ordinary (not [async]) function. *)
Definition handleLogin (request : Request) (env : Env) (url : URL) : Completion Response :=
  (* Prefer explicit origin param (most reliable), fall back to header detection *)
  let originParam := searchParams_get (searchParams url) "origin" in
  let allowedOrigins := getAllowedOrigins env in
  let origin :=
    match originParam with
    | Some originParam =>
        if Js.truthy (Some originParam) && Js.includes allowedOrigins originParam
        then Normal originParam
        else getRequestOrigin request env
    | None => getRequestOrigin request env
    end in
  match origin with
  | Thrown e => Thrown e
  | Normal origin => Normal (Response_redirect (authUrl env url origin) 302)
  end.

(** The constant [redirectOrigin] of [handleCallback]: the origin in
    [state] when it is on the allow-list, the first allowed origin
    otherwise. *)
Definition redirectOrigin (env : Env) (url : URL) : string :=
  let state := searchParams_get (searchParams url) "state" in
  let allowedOrigins := getAllowedOrigins env in
  match state with
  | Some state =>
      if Js.truthy (Some state) && Js.includes allowedOrigins state
      then state
      else Js.first allowedOrigins
  | None => Js.first allowedOrigins
  end.

(** [handleCallback]. *)
Definition handleCallback (request : Request) (env : Env) (url : URL)
  : M (Promise Response) :=
  async (
    let code := searchParams_get (searchParams url) "code" in
    let error := searchParams_get (searchParams url) "error" in
    (* Validate and use the origin from state, or fall back to first allowed origin *)
    let redirectOrigin := redirectOrigin env url in
    if Js.truthy error then
      ret (Response_redirect
             (redirectOrigin +:+ "?auth=error&message="
                +:+ encodeURIComponent (Js.narrowed error)) 302)
    else if negb (Js.truthy code) then
      ret (Response_redirect (redirectOrigin +:+ "?auth=error&message=no_code") 302)
    else
      (* Exchange authorization code for tokens *)
      tokens <- fetch_token (AuthorizationCodeGrant
                  (Js.narrowed code)
                  (GOOGLE_CLIENT_ID env)
                  (GOOGLE_CLIENT_SECRET env)
                  (callback_uri url));;
      if Js.truthy (tokens_error tokens) then
        console_error "Token exchange error:" ;;;
        ret (Response_redirect
               (redirectOrigin +:+ "?auth=error&message="
                  +:+ encodeURIComponent
                        (Js.or_else (error_description tokens)
                           (Js.narrowed (tokens_error tokens)))) 302)
      else if negb (Js.truthy (tokens_refresh_token tokens)) then
        console_error "No refresh token received" ;;;
        ret (Response_redirect
               (redirectOrigin +:+ "?auth=error&message=no_refresh_token") 302)
      else
        (* Generate session ID and store refresh token in KV *)
        sessionId <- crypto_randomUUID;;
        created <- Date_now;;
        let tokenData := {|
          refresh_token := Js.narrowed (tokens_refresh_token tokens);
          created := created
        |} in
        TOKENS_put sessionId tokenData SESSION_MAX_AGE ;;;
        (* Redirect back to app with session cookie *)
        ret {|
          status := 302;
          body := NoBody;
          headers := list_to_map [
            ("Location", redirectOrigin +:+ "?auth=success");
            ("Set-Cookie", buildSessionCookie sessionId SESSION_MAX_AGE)
          ]
        |}
  ).

(** [handleToken]. *)
Definition handleToken (request : Request) (env : Env) : M (Promise Response) :=
  async (
    let sessionId := getSessionId request in
    if negb (Js.truthy sessionId) then
      lift (corsResponse request env 401 (Some [
        ("error", Some (JString "Not authenticated"));
        ("code", Some (JString "NO_SESSION"))]) ∅)
    else
      stored <- TOKENS_get (Js.narrowed sessionId);;
      match stored with
      | None =>
          lift (corsResponse request env 401 (Some [
            ("error", Some (JString "Session expired"));
            ("code", Some (JString "SESSION_EXPIRED"))]) ∅)
      | Some tokenData =>
          (* Get fresh access token using refresh token *)
          tokens <- fetch_token (RefreshTokenGrant
                      (refresh_token tokenData)
                      (GOOGLE_CLIENT_ID env)
                      (GOOGLE_CLIENT_SECRET env));;
          if Js.truthy (tokens_error tokens) then
            console_error "Token refresh error:" ;;;
            (* If refresh token is invalid, clear the session *)
            if bool_decide (tokens_error tokens = Some "invalid_grant") then
              TOKENS_delete (Js.narrowed sessionId) ;;;
              lift (corsResponse request env 401 (Some [
                ("error", Some (JString "Session invalidated"));
                ("code", Some (JString "REFRESH_FAILED"))])
                {[ "Set-Cookie" := buildSessionCookie "" 0 ]})
            else
              lift (corsResponse request env 500 (Some [
                ("error", Some (JString "Token refresh failed"));
                ("code", Some (JString "REFRESH_ERROR"))]) ∅)
          else
            lift (corsResponse request env 200 (Some [
              ("access_token", JString <$> access_token tokens);
              ("expires_in", JNumber <$> expires_in tokens)]) ∅)
      end
  ).

(** [handleLogout]. *)
Definition handleLogout (request : Request) (env : Env) : M (Promise Response) :=
  async (
    let sessionId := getSessionId request in
    (if Js.truthy sessionId
     then TOKENS_delete (Js.narrowed sessionId)
     else ret tt) ;;;
    lift (corsResponse request env 200 (Some [
      ("success", Some (JBool true))])
      {[ "Set-Cookie" := buildSessionCookie "" 0 ]})
  ).

(** [handleStatus]. *)
Definition handleStatus (request : Request) (env : Env) : M (Promise Response) :=
  async (
    let sessionId := getSessionId request in
    if negb (Js.truthy sessionId) then
      lift (corsResponse request env 200 (Some [
        ("authenticated", Some (JBool false))]) ∅)
    else
      stored <- TOKENS_get (Js.narrowed sessionId);;
      match stored with
      | None =>
          lift (corsResponse request env 200 (Some [
            ("authenticated", Some (JBool false))]) ∅)
      | Some tokenData =>
          lift (corsResponse request env 200 (Some [
            ("authenticated", Some (JBool true));
            ("sessionCreated", Some (JNumber (created tokenData)))]) ∅)
      end
  ).

(** The default export's [fetch].  The four [async] handlers are returned
    without [await]: the [try] block has completed when their promise
    settles, so only an exception thrown while the [switch] itself runs,
    that is by [handleLogin], reaches the [catch] clause. *)
Definition fetch (request : Request) (env : Env) : M (Promise Response) :=
  async (
    let url := url request in
    (* CORS preflight *)
    if String.eqb (method request) "OPTIONS" then
      lift (corsResponse request env 204 None ∅)
    else
      returned <- try_catch
        (if String.eqb (pathname url) "/auth/login" then
           r <- lift (handleLogin request env url);; ret (Value r)
         else if String.eqb (pathname url) "/auth/callback" then
           p <- handleCallback request env url;; ret (Thenable p)
         else if String.eqb (pathname url) "/auth/token" then
           p <- handleToken request env;; ret (Thenable p)
         else if String.eqb (pathname url) "/auth/logout" then
           p <- handleLogout request env;; ret (Thenable p)
         else if String.eqb (pathname url) "/auth/status" then
           p <- handleStatus request env;; ret (Thenable p)
         else
           ret (Value {|
             status := 404;
             body := Text "Not found";
             headers := {[ "Content-Type" := "text/plain;charset=UTF-8" ]}
           |}))
        (λ error,
           console_error "Worker error:" ;;;
           r <- lift (corsResponse request env 500 (Some [
                  ("error", Some (JString "Internal server error"))]) ∅);;
           ret (Value r));;
      resolve returned
  ).

End Worker.

(** ** Observations on a run *)

Definition is_upstream_call (ev : Event) : bool :=
  match ev with
  | TokenEndpoint _ => true
  | _ => false
  end.


Definition is_store_write (ev : Event) : bool :=
  match ev with
  | KVPut _ _ | KVDelete _ => true
  | _ => false
  end.

(** The response carries the four CORS headers of [corsResponse], with the
    origin that [getRequestOrigin] computes for the request. *)
Definition carries_cors `{Platform} (request : Request) (env : Env)
    (r : Response) : Prop :=
  ∃ o, getRequestOrigin request env = Normal o
     ∧ headers r !! "Access-Control-Allow-Origin" = Some o
     ∧ headers r !! "Access-Control-Allow-Credentials" = Some "true"
     ∧ headers r !! "Access-Control-Allow-Methods" = Some "GET, POST, OPTIONS"
     ∧ headers r !! "Access-Control-Allow-Headers" = Some "Content-Type".

(** A response that [corsResponse] built, with the extra headers the worker
    passes to it: none, or [Set-Cookie]. *)
Definition built_by_corsResponse `{Platform} (request : Request) (env : Env)
    (r : Response) : Prop :=
  ∃ code b extra,
    (∀ k, k ≠ "Set-Cookie" → extra !! k = None)
    ∧ corsResponse request env code b extra = Normal r.

(** A response without the CORS headers. *)
Definition carries_no_cors (r : Response) : Prop :=
  headers r !! "Access-Control-Allow-Origin" = None
  ∧ headers r !! "Access-Control-Allow-Credentials" = None
  ∧ headers r !! "Access-Control-Allow-Methods" = None
  ∧ headers r !! "Access-Control-Allow-Headers" = None.

(** ** The specification's wording, for comparison *)

Module Spec.

(** A candidate origin that is present: [null] and the empty string are
    no candidate. *)
Definition present (v : option string) : option string :=
  match v with
  | Some s => if String.eqb s "" then None else Some s
  | None => None
  end.

(** The Origin Validator as section 4.1 words it: the candidates are
    taken in priority order, the first one that is a member of the
    allow-list is returned, and without one the first allow-list entry. *)
Fixpoint resolve (allowed : list string) (candidates : list (option string)) : string :=
  match candidates with
  | [] => Js.first allowed
  | Some c :: rest => if Js.includes allowed c then c else resolve allowed rest
  | None :: rest => resolve allowed rest
  end.

(** The name of one [name=value] pair of a [Cookie] header: what stands
    before the first [=], leading white space apart. *)
Fixpoint before_equals (s : string) : string :=
  match s with
  | EmptyString => EmptyString
  | String c r => if Ascii.eqb c "=" then EmptyString else String c (before_equals r)
  end.

(** The names of the cookies a [Cookie] header carries: its pairs are
    separated by [;]. *)
Definition cookie_names (header : string) : list string :=
  map (λ pair, before_equals (Js.trimStart pair)) (Js.split ";" header).

End Spec.

(** The candidate that the [Referer] header contributes: the origin of the
    URL it holds. *)
Definition referer_candidate `{Platform} (request : Request) : option string :=
  Spec.present (headers_get request "Referer") ≫= url_origin.

(** ** A platform and a deployment for the examples

    The examples run the worker on a small, explicit platform.  Its URL
    parser knows the [http] and [https] URLs with a plain host: the origin
    is the scheme and the host.  It refuses everything else, among it the
    strings with no scheme, which [new URL] refuses as well.  Its provider
    answers by the credential it is shown. *)

Module Sample.

Fixpoint host_end (s : string) : string :=
  match s with
  | EmptyString => EmptyString
  | String c r =>
      if Ascii.eqb c "/" || Ascii.eqb c "?" || Ascii.eqb c "#" then EmptyString
      else String c (host_end r)
  end.

Definition parse_origin (s : string) : option string :=
  match Js.strip_prefix "https://" s, Js.strip_prefix "http://" s with
  | Some rest, _ =>
      if String.eqb (host_end rest) "" then None
      else Some ("https://" +:+ host_end rest)
  | None, Some rest =>
      if String.eqb (host_end rest) "" then None
      else Some ("http://" +:+ host_end rest)
  | None, None => None
  end.

Fixpoint query (ps : list (string * string)) : string :=
  match ps with
  | [] => ""
  | [(k, v)] => k +:+ "=" +:+ v
  | (k, v) :: ps' => k +:+ "=" +:+ v +:+ "&" +:+ query ps'
  end.

Definition token_fields (access : string) (refresh : option string) : GoogleTokenResponse :=
  {| access_token := Some access; expires_in := Some 3599;
     tokens_refresh_token := refresh; token_type := Some "Bearer";
     tokens_error := None; error_description := None |}.

Definition error_fields (err : string) : GoogleTokenResponse :=
  {| access_token := None; expires_in := None;
     tokens_refresh_token := None; token_type := None;
     tokens_error := Some err; error_description := None |}.

Definition provider (req : TokenRequest) : Completion GoogleTokenResponse :=
  match req with
  | AuthorizationCodeGrant code _ _ _ =>
      if String.eqb code "code-1" then Normal (token_fields "at-1" (Some "rt-1"))
      else if String.eqb code "code-2" then Normal (token_fields "at-2" None)
      else Normal (error_fields "invalid_grant")
  | RefreshTokenGrant refresh _ _ =>
      if String.eqb refresh "rt-1" then Normal (token_fields "at-3" None)
      else if String.eqb refresh "rt-revoked" then Normal (error_fields "invalid_grant")
      else if String.eqb refresh "rt-busy" then Normal (error_fields "temporarily_unavailable")
      else Thrown (UpstreamFailure "fetch failed")
  end.

#[export] Instance platform : Platform := {|
  url_origin := parse_origin;
  url_href := λ s, s;
  encodeURIComponent := λ s, s;
  urlencoded := query;
  token_endpoint := provider;
  getRandomValues := λ d i, N.of_nat (17 * d + 29 * i + 5)
|}.

Definition env : Env := {|
  GOOGLE_CLIENT_ID := "client-id";
  GOOGLE_CLIENT_SECRET := "client-secret";
  ALLOWED_ORIGINS := "https://app.example, https://beta.example"
|}.

Definition worker_url (path : string) (params : list (string * string)) : URL :=
  {| origin := "https://auth.example"; pathname := path; searchParams := params |}.

Definition request (m path : string) (params hs : list (string * string)) : Request :=
  {| method := m; url := worker_url path params; request_headers := list_to_map hs |}.

Definition record (refresh : string) : KVEntry :=
  {| kv_value := {| refresh_token := refresh; created := 1700000000000 |};
     expirationTtl := SESSION_MAX_AGE |}.

(** A world with three sessions, at some instant. *)
Definition world : World := {|
  TOKENS := list_to_map [
    ("sid-live", record "rt-1");
    ("sid-revoked", record "rt-revoked");
    ("sid-busy", record "rt-busy")
  ];
  trace := [];
  now := 1700000600000;
  draws := 0
|}.

End Sample.

(** ** Further helpers for the statements *)


(** The value of the [Cookie] header as [getSessionId] reads it. *)
Definition cookie_header (request : Request) : string :=
  Js.or_else (headers_get request "Cookie") "".

(** The same request under another method. *)
Definition with_method (m : string) (request : Request) : Request :=
  {| method := m; url := url request; request_headers := request_headers request |}.

(** The events that a run from [w] to [w'] added to the trace. *)
Definition added_events (w w' : World) (evs : list Event) : Prop :=
  trace w' = (trace w ++ evs)%list.

(** The refresh exchange of [handleToken] for a stored record. *)
Definition refresh_call (env : Env) (entry : KVEntry) : TokenRequest :=
  RefreshTokenGrant (refresh_token (kv_value entry))
    (GOOGLE_CLIENT_ID env) (GOOGLE_CLIENT_SECRET env).

(** The code exchange of [handleCallback]. *)
Definition code_call (env : Env) (url : URL) (code : string) : TokenRequest :=
  AuthorizationCodeGrant code (GOOGLE_CLIENT_ID env) (GOOGLE_CLIENT_SECRET env)
    (callback_uri url).

(** The record that [handleCallback] stores. *)
Definition session_entry (refresh : string) (created_at : Z) : KVEntry :=
  {| kv_value := {| refresh_token := refresh; created := created_at |};
     expirationTtl := SESSION_MAX_AGE |}.

(** * Properties *)

(** ** Strings and the allow-list *)

Lemma split_not_nil (sep : ascii) (s : string) : Js.split sep s ≠ [].
Proof.
  induction s as [|c r IH]; simpl; [done|].
  destruct (Ascii.eqb c sep); [done|].
  by destruct (Js.split sep r).
Qed.




Lemma includes_true (l : list string) (x : string) :
  Js.includes l x = true ↔ x ∈ l.
Proof. unfold Js.includes. apply bool_decide_eq_true. Qed.

Lemma includes_false (l : list string) (x : string) :
  Js.includes l x = false ↔ x ∉ l.
Proof. unfold Js.includes. apply bool_decide_eq_false. Qed.

Lemma truthy_Some (s : string) : Js.truthy (Some s) = true ↔ s ≠ "".
Proof.
  unfold Js.truthy. destruct (String.eqb_spec s ""); simpl; split; try done.
Qed.

Lemma truthy_narrowed (v : option string) :
  Js.truthy v = true → v = Some (Js.narrowed v) ∧ Js.narrowed v ≠ "".
Proof.
  destruct v as [s|]; [|done]. intros Hs. split; [done|].
  by apply truthy_Some.
Qed.

Lemma span_not_semicolon_id (v : string) :
  ";"%char ∉ list_ascii_of_string v → Js.span_not_semicolon v = v.
Proof.
  induction v as [|c r IH]; simpl; [done|]. intros Hc.
  destruct (Ascii.eqb_spec c ";") as [->|_].
  - exfalso. apply Hc. left.
  - f_equal. apply IH. intros Hr. apply Hc. by right.
Qed.

Lemma split_no_separator (sep : ascii) (v : string) :
  sep ∉ list_ascii_of_string v → Js.split sep v = [v].
Proof.
  induction v as [|c r IH]; simpl; [done|]. intros Hc.
  destruct (Ascii.eqb_spec c sep) as [->|_].
  - exfalso. apply Hc. left.
  - rewrite IH; [done|]. intros Hr. apply Hc. by right.
Qed.

(** ** The session cookie *)

Lemma match_session_unfold (s : string) :
  Js.match_session s =
  match Js.match_session_here s with
  | Some v => Some v
  | None => match s with EmptyString => None | String _ r => Js.match_session r end
  end.
Proof. by destruct s. Qed.

Lemma match_session_at_start (v : string) :
  v ≠ "" → ";"%char ∉ list_ascii_of_string v →
  Js.match_session ("session=" +:+ v) = Some v.
Proof.
  intros Hv Hsemi. rewrite match_session_unfold.
  unfold Js.match_session_here.
  change (Js.strip_prefix "session=" ("session=" +:+ v)) with (Some v).
  cbv beta iota zeta. rewrite span_not_semicolon_id by done.
  by destruct (String.eqb_spec v "").
Qed.

(** C10: the pattern [session=([^;]+)] is searched anywhere in the [Cookie]
    header.  A header that carries the single cookie [xsession=v], and so
    no cookie named [session], still yields [v] as the session identifier:
    the extraction does not report that the session cookie is missing. *)
Theorem getSessionId_takes_foreign_cookie (request : Request) (v : string) :
  headers_get request "Cookie" = Some ("xsession=" +:+ v) →
  v ≠ "" →
  ";"%char ∉ list_ascii_of_string v →
  Spec.cookie_names ("xsession=" +:+ v) = ["xsession"]
  ∧ ("session" ∉ Spec.cookie_names ("xsession=" +:+ v))
  ∧ getSessionId request = Some v.
Proof.
  intros Hcookie Hv Hsemi.
  assert (Hnames : Spec.cookie_names ("xsession=" +:+ v) = ["xsession"]).
  { unfold Spec.cookie_names. rewrite split_no_separator.
    - reflexivity.
    - change ("xsession=" +:+ v) with
        (String "x" (String "s" (String "e" (String "s" (String "s" (String "i"
          (String "o" (String "n" (String "=" v))))))))).
      simpl. rewrite !elem_of_cons. intros Hin.
      repeat (destruct Hin as [Hin|Hin]; [discriminate Hin|]). done. }
  split; [done|]. split.
  - rewrite Hnames. rewrite list_elem_of_singleton. discriminate.
  - unfold getSessionId. rewrite Hcookie.
    change (Js.or_else (Some ("xsession=" +:+ v)) "") with (String "x" ("session=" +:+ v)).
    change (Js.match_session (String "x" ("session=" +:+ v)))
      with (Js.match_session ("session=" +:+ v)).
    by apply match_session_at_start.
Qed.

(** ** The Origin Validator *)

Section OriginValidator.

Context `{Platform}.

Lemma present_truthy (v : option string) (s : string) :
  Spec.present v = Some s ↔ v = Some s ∧ Js.truthy (Some s) = true.
Proof.
  unfold Spec.present, Js.truthy.
  destruct v as [t|]; [|split; [done|by intros [? _]]].
  destruct (String.eqb_spec t ""); simpl; split.
  - done.
  - intros [[= ->] Ht]. by destruct (String.eqb_spec s "").
  - intros [= ->]. by destruct (String.eqb_spec s "").
  - by intros [[= ->] _].
Qed.

(** Whenever [getRequestOrigin] returns, it returns what the validator of
    the specification returns on the [Origin] header and the origin of the
    [Referer] header, in this order. *)
Lemma getRequestOrigin_resolve (request : Request) (env : Env) (o : string) :
  getRequestOrigin request env = Normal o →
  o = Spec.resolve (getAllowedOrigins env)
        [Spec.present (headers_get request "Origin"); referer_candidate request].
Proof.
  unfold getRequestOrigin, referer_candidate, new_URL_origin, Spec.present, Js.truthy.
  destruct (headers_get request "Origin") as [org|];
    destruct (headers_get request "Referer") as [ref|]; simpl;
    repeat (case_match; simpl in *; simplify_eq); try done;
    intros; simplify_eq; done.
Qed.

(** It returns unless it has to parse a [Referer] that is no URL. *)
Lemma getRequestOrigin_returns (request : Request) (env : Env) :
  (∃ o, Spec.present (headers_get request "Origin") = Some o ∧ o ∈ getAllowedOrigins env)
  ∨ Spec.present (headers_get request "Referer") = None
  ∨ is_Some (referer_candidate request) →
  ∃ o, getRequestOrigin request env = Normal o.
Proof.
  unfold getRequestOrigin, referer_candidate, new_URL_origin, Spec.present, Js.truthy.
  intros [(o & Ho & Hin)|[Href|[ro Hro]]];
    destruct (headers_get request "Origin") as [org|];
    destruct (headers_get request "Referer") as [ref|]; simpl in *;
    repeat (case_match; simpl in *; simplify_eq); eauto;
    try (apply includes_false in Hin; done);
    match goal with
    | Hf : Js.includes _ _ = false, Hi : _ ∈ _ |- _ => by apply includes_false in Hf
    end.
Qed.

(** It throws when the [Origin] header does not settle the question and
    the [Referer] header holds something that is no URL. *)
Lemma getRequestOrigin_throws (request : Request) (env : Env) (referer : string) :
  Js.truthy (headers_get request "Origin")
    && Js.includes (getAllowedOrigins env) (Js.narrowed (headers_get request "Origin")) = false →
  headers_get request "Referer" = Some referer →
  referer ≠ "" →
  url_origin referer = None →
  getRequestOrigin request env = Thrown (TypeError "Invalid URL").
Proof.
  unfold getRequestOrigin, new_URL_origin. intros Horg -> Hne ->.
  apply truthy_Some in Hne.
  destruct (headers_get request "Origin") as [org|].
  - change (Js.narrowed (Some org)) with org in Horg.
    rewrite Horg. by rewrite Hne.
  - by rewrite Hne.
Qed.


End OriginValidator.

(** ** Responses built by [corsResponse] *)

Section Cors.

Context `{Platform}.

Lemma corsResponse_Normal (request : Request) (env : Env) (code : Z)
    (b : option (list (string * option JsonValue))) (extra : gmap string string)
    (r : Response) :
  corsResponse request env code b extra = Normal r →
  ∃ o, getRequestOrigin request env = Normal o
     ∧ status r = code
     ∧ body r = match b with Some props => json_object props | None => NoBody end
     ∧ headers r = extra ∪ list_to_map [
         ("Access-Control-Allow-Origin", o);
         ("Access-Control-Allow-Credentials", "true");
         ("Access-Control-Allow-Methods", "GET, POST, OPTIONS");
         ("Access-Control-Allow-Headers", "Content-Type");
         ("Content-Type", "application/json")].
Proof.
  unfold corsResponse. destruct (getRequestOrigin request env) as [o|e]; [|done].
  intros [= <-]. by exists o.
Qed.

Lemma corsResponse_returns (request : Request) (env : Env) (code : Z)
    (b : option (list (string * option JsonValue))) (extra : gmap string string)
    (o : string) :
  getRequestOrigin request env = Normal o →
  ∃ r, corsResponse request env code b extra = Normal r.
Proof. unfold corsResponse. intros ->. eauto. Qed.

Lemma corsResponse_Thrown (request : Request) (env : Env) (code : Z)
    (b : option (list (string * option JsonValue))) (extra : gmap string string)
    (e : Exn) :
  getRequestOrigin request env = Thrown e →
  corsResponse request env code b extra = Thrown e.
Proof. unfold corsResponse. by intros ->. Qed.

(** The extra headers of the worker's calls: none, or [Set-Cookie]. *)
Lemma corsResponse_carries_cors (request : Request) (env : Env) (code : Z)
    (b : option (list (string * option JsonValue))) (extra : gmap string string)
    (r : Response) :
  (∀ k, k ≠ "Set-Cookie" → extra !! k = None) →
  corsResponse request env code b extra = Normal r →
  carries_cors request env r.
Proof.
  intros Hextra (o & Ho & _ & _ & Hh)%corsResponse_Normal.
  exists o. split; [done|]. rewrite Hh.
  repeat split; (rewrite lookup_union_r; [by simplify_map_eq | by apply Hextra]).
Qed.

Lemma only_cookie_empty (k : string) :
  k ≠ "Set-Cookie" → (∅ : gmap string string) !! k = None.
Proof. intros _. apply lookup_empty. Qed.

Lemma only_cookie_singleton (c k : string) :
  k ≠ "Set-Cookie" → ({[ "Set-Cookie" := c ]} : gmap string string) !! k = None.
Proof. intros Hk. by apply lookup_singleton_ne. Qed.

End Cors.

(** ** Session identifiers *)

Lemma match_session_here_nonempty (s v : string) :
  Js.match_session_here s = Some v → v ≠ "".
Proof.
  unfold Js.match_session_here. destruct (Js.strip_prefix "session=" s) as [rest|]; [|done].
  cbv zeta. destruct (String.eqb_spec (Js.span_not_semicolon rest) ""); [done|].
  by intros [= <-].
Qed.

Lemma match_session_nonempty (s v : string) :
  Js.match_session s = Some v → v ≠ "".
Proof.
  induction s as [|c r IH]; rewrite match_session_unfold.
  - destruct (Js.match_session_here "") eqn:Hh; [|done].
    intros [= <-]. by eapply match_session_here_nonempty.
  - destruct (Js.match_session_here (String c r)) eqn:Hh; [|done].
    intros [= <-]. by eapply match_session_here_nonempty.
Qed.

Lemma getSessionId_truthy (request : Request) (sid : string) :
  getSessionId request = Some sid → Js.truthy (Some sid) = true.
Proof. intros Hs. apply truthy_Some. by eapply match_session_nonempty. Qed.

(** ** The router *)

Section Router.

Context `{Platform}.


(** A handler returned without [await]: the promise of [fetch] is the
    promise of the handler, whatever it settles to. *)
Lemma try_returned_promise (body : M Response) (h : Exn → M (Returned Response))
    (w : World) :
  async (returned <- try_catch (p <- async body;; ret (Thenable p)) h;;
         resolve returned) w
  = async body w.
Proof.
  unfold async, bind, try_catch, ret, resolve, await, lift.
  by destruct (body w) as [[r|e] w'].
Qed.

Lemma fetch_preflight (request : Request) (env : Env) (w : World) :
  method request = "OPTIONS" →
  fetch request env w = (Normal (corsResponse request env 204 None ∅), w).
Proof. unfold fetch. intros ->. reflexivity. Qed.

Lemma fetch_callback (request : Request) (env : Env) (w : World) :
  method request ≠ "OPTIONS" →
  pathname (url request) = "/auth/callback" →
  fetch request env w = handleCallback request env (url request) w.
Proof.
  unfold fetch. intros Hm ->.
  destruct (String.eqb_spec (method request) "OPTIONS"); [done|].
  change ("/auth/callback" =? "/auth/login")%string with false.
  change ("/auth/callback" =? "/auth/callback")%string with true.
  cbv iota zeta. unfold handleCallback. apply try_returned_promise.
Qed.

Lemma fetch_token_route (request : Request) (env : Env) (w : World) :
  method request ≠ "OPTIONS" →
  pathname (url request) = "/auth/token" →
  fetch request env w = handleToken request env w.
Proof.
  unfold fetch. intros Hm ->.
  destruct (String.eqb_spec (method request) "OPTIONS"); [done|].
  change ("/auth/token" =? "/auth/login")%string with false.
  change ("/auth/token" =? "/auth/callback")%string with false.
  change ("/auth/token" =? "/auth/token")%string with true.
  cbv iota zeta. unfold handleToken. apply try_returned_promise.
Qed.

Lemma fetch_logout (request : Request) (env : Env) (w : World) :
  method request ≠ "OPTIONS" →
  pathname (url request) = "/auth/logout" →
  fetch request env w = handleLogout request env w.
Proof.
  unfold fetch. intros Hm ->.
  destruct (String.eqb_spec (method request) "OPTIONS"); [done|].
  change ("/auth/logout" =? "/auth/login")%string with false.
  change ("/auth/logout" =? "/auth/callback")%string with false.
  change ("/auth/logout" =? "/auth/token")%string with false.
  change ("/auth/logout" =? "/auth/logout")%string with true.
  cbv iota zeta. unfold handleLogout. apply try_returned_promise.
Qed.

Lemma fetch_status (request : Request) (env : Env) (w : World) :
  method request ≠ "OPTIONS" →
  pathname (url request) = "/auth/status" →
  fetch request env w = handleStatus request env w.
Proof.
  unfold fetch. intros Hm ->.
  destruct (String.eqb_spec (method request) "OPTIONS"); [done|].
  change ("/auth/status" =? "/auth/login")%string with false.
  change ("/auth/status" =? "/auth/callback")%string with false.
  change ("/auth/status" =? "/auth/token")%string with false.
  change ("/auth/status" =? "/auth/logout")%string with false.
  change ("/auth/status" =? "/auth/status")%string with true.
  cbv iota zeta. unfold handleStatus. apply try_returned_promise.
Qed.

(** [handleLogin] is the one handler called inside the [try] block: its
    exception reaches the [catch] clause, which logs it and calls
    [corsResponse]. *)
Lemma fetch_login (request : Request) (env : Env) (w : World) :
  method request ≠ "OPTIONS" →
  pathname (url request) = "/auth/login" →
  fetch request env w =
  match handleLogin request env (url request) with
  | Normal r => (Normal (Normal r), w)
  | Thrown _ =>
      (Normal (corsResponse request env 500
                 (Some [("error", Some (JString "Internal server error"))]) ∅),
       log (ConsoleError "Worker error:") w)
  end.
Proof.
  unfold fetch. intros Hm ->.
  destruct (String.eqb_spec (method request) "OPTIONS"); [done|].
  change ("/auth/login" =? "/auth/login")%string with true.
  cbv iota zeta.
  unfold async, bind, try_catch, ret, resolve, await, lift, console_error.
  destruct (handleLogin request env (url request)) as [r|e]; [done|].
  by destruct (corsResponse request env 500 _ ∅).
Qed.

Lemma fetch_not_found (request : Request) (env : Env) (w : World) :
  method request ≠ "OPTIONS" →
  pathname (url request) ≠ "/auth/login" →
  pathname (url request) ≠ "/auth/callback" →
  pathname (url request) ≠ "/auth/token" →
  pathname (url request) ≠ "/auth/logout" →
  pathname (url request) ≠ "/auth/status" →
  fetch request env w =
  (Normal (Normal {| status := 404; body := Text "Not found";
                     headers := {[ "Content-Type" := "text/plain;charset=UTF-8" ]} |}), w).
Proof.
  unfold fetch. intros Hm H1 H2 H3 H4 H5.
  destruct (String.eqb_spec (method request) "OPTIONS"); [done|].
  destruct (String.eqb_spec (pathname (url request)) "/auth/login"); [done|].
  destruct (String.eqb_spec (pathname (url request)) "/auth/callback"); [done|].
  destruct (String.eqb_spec (pathname (url request)) "/auth/token"); [done|].
  destruct (String.eqb_spec (pathname (url request)) "/auth/logout"); [done|].
  destruct (String.eqb_spec (pathname (url request)) "/auth/status"); [done|].
  reflexivity.
Qed.

End Router.

(** ** [/auth/token] *)

Section Token.

Context `{Platform}.

Lemma handleToken_no_session (request : Request) (env : Env) (w : World) :
  getSessionId request = None →
  handleToken request env w =
  (Normal (corsResponse request env 401 (Some [
     ("error", Some (JString "Not authenticated"));
     ("code", Some (JString "NO_SESSION"))]) ∅), w).
Proof. unfold handleToken. by intros ->. Qed.

Lemma handleToken_session_expired (request : Request) (env : Env) (w : World)
    (sid : string) :
  getSessionId request = Some sid →
  TOKENS w !! sid = None →
  handleToken request env w =
  (Normal (corsResponse request env 401 (Some [
     ("error", Some (JString "Session expired"));
     ("code", Some (JString "SESSION_EXPIRED"))]) ∅), log (KVGet sid) w).
Proof.
  intros Hsid Hnone. unfold handleToken. rewrite Hsid.
  rewrite (getSessionId_truthy _ _ Hsid). cbn [negb Js.narrowed].
  unfold async, bind, TOKENS_get, lift. by rewrite Hnone.
Qed.

Lemma handleToken_refresh_failed (request : Request) (env : Env) (w : World)
    (sid : string) (entry : KVEntry) (tokens : GoogleTokenResponse) :
  getSessionId request = Some sid →
  TOKENS w !! sid = Some entry →
  token_endpoint (RefreshTokenGrant (refresh_token (kv_value entry))
                    (GOOGLE_CLIENT_ID env) (GOOGLE_CLIENT_SECRET env)) = Normal tokens →
  tokens_error tokens = Some "invalid_grant" →
  handleToken request env w =
  (Normal (corsResponse request env 401 (Some [
     ("error", Some (JString "Session invalidated"));
     ("code", Some (JString "REFRESH_FAILED"))])
     {[ "Set-Cookie" := buildSessionCookie "" 0 ]}),
   log (KVDelete sid) (set_TOKENS (delete sid)
     (log (ConsoleError "Token refresh error:")
        (log (TokenEndpoint (RefreshTokenGrant (refresh_token (kv_value entry))
               (GOOGLE_CLIENT_ID env) (GOOGLE_CLIENT_SECRET env)))
           (log (KVGet sid) w))))).
Proof.
  intros Hsid Hentry Hup Herr. unfold handleToken. rewrite Hsid.
  rewrite (getSessionId_truthy _ _ Hsid). cbn [negb Js.narrowed].
  unfold async, bind, TOKENS_get, fetch_token, console_error, TOKENS_delete, lift.
  rewrite Hentry. cbn [fmap option_fmap option_map]. rewrite Hup, Herr.
  reflexivity.
Qed.

Lemma handleToken_refresh_error (request : Request) (env : Env) (w : World)
    (sid err : string) (entry : KVEntry) (tokens : GoogleTokenResponse) :
  getSessionId request = Some sid →
  TOKENS w !! sid = Some entry →
  token_endpoint (RefreshTokenGrant (refresh_token (kv_value entry))
                    (GOOGLE_CLIENT_ID env) (GOOGLE_CLIENT_SECRET env)) = Normal tokens →
  tokens_error tokens = Some err →
  err ≠ "" →
  err ≠ "invalid_grant" →
  handleToken request env w =
  (Normal (corsResponse request env 500 (Some [
     ("error", Some (JString "Token refresh failed"));
     ("code", Some (JString "REFRESH_ERROR"))]) ∅),
   log (ConsoleError "Token refresh error:")
     (log (TokenEndpoint (RefreshTokenGrant (refresh_token (kv_value entry))
            (GOOGLE_CLIENT_ID env) (GOOGLE_CLIENT_SECRET env)))
        (log (KVGet sid) w))).
Proof.
  intros Hsid Hentry Hup Herr Hne Hother. unfold handleToken. rewrite Hsid.
  rewrite (getSessionId_truthy _ _ Hsid). cbn [negb Js.narrowed].
  unfold async, bind, TOKENS_get, fetch_token, console_error, TOKENS_delete, lift.
  rewrite Hentry. cbn [fmap option_fmap option_map]. rewrite Hup, Herr.
  apply truthy_Some in Hne. rewrite Hne.
  rewrite bool_decide_eq_false_2; [done|]. by intros [= ->].
Qed.

End Token.

Section TokenClaims.

Context `{Platform}.

(** The status codes of [/auth/token], for the requests whose CORS origin
    [getRequestOrigin] computes: [401 NO_SESSION] without a session
    identifier, [401 SESSION_EXPIRED] when the store has no record under
    it, [401 REFRESH_FAILED] with the record deleted and the cookie cleared
    when the provider answers [invalid_grant], and [500 REFRESH_ERROR]
    with the store as it was on any other provider error. *)
Theorem token_codes_when_origin_resolves (request : Request) (env : Env)
    (w : World) (o : string) :
  method request ≠ "OPTIONS" →
  pathname (url request) = "/auth/token" →
  getRequestOrigin request env = Normal o →
  (getSessionId request = None →
     ∃ r, fetch request env w = (Normal (Normal r), w)
        ∧ status r = 401
        ∧ body r = Json [("error", JString "Not authenticated");
                         ("code", JString "NO_SESSION")]
        ∧ carries_cors request env r)
  ∧ (∀ sid, getSessionId request = Some sid → TOKENS w !! sid = None →
     ∃ r w', fetch request env w = (Normal (Normal r), w')
        ∧ status r = 401
        ∧ body r = Json [("error", JString "Session expired");
                         ("code", JString "SESSION_EXPIRED")]
        ∧ carries_cors request env r
        ∧ TOKENS w' = TOKENS w)
  ∧ (∀ sid entry tokens,
     getSessionId request = Some sid → TOKENS w !! sid = Some entry →
     token_endpoint (RefreshTokenGrant (refresh_token (kv_value entry))
                       (GOOGLE_CLIENT_ID env) (GOOGLE_CLIENT_SECRET env)) = Normal tokens →
     tokens_error tokens = Some "invalid_grant" →
     ∃ r w', fetch request env w = (Normal (Normal r), w')
        ∧ status r = 401
        ∧ body r = Json [("error", JString "Session invalidated");
                         ("code", JString "REFRESH_FAILED")]
        ∧ carries_cors request env r
        ∧ headers r !! "Set-Cookie" = Some (buildSessionCookie "" 0)
        ∧ TOKENS w' = delete sid (TOKENS w)
        ∧ TOKENS w' !! sid = None)
  ∧ (∀ sid entry tokens err,
     getSessionId request = Some sid → TOKENS w !! sid = Some entry →
     token_endpoint (RefreshTokenGrant (refresh_token (kv_value entry))
                       (GOOGLE_CLIENT_ID env) (GOOGLE_CLIENT_SECRET env)) = Normal tokens →
     tokens_error tokens = Some err → err ≠ "" → err ≠ "invalid_grant" →
     ∃ r w', fetch request env w = (Normal (Normal r), w')
        ∧ status r = 500
        ∧ body r = Json [("error", JString "Token refresh failed");
                         ("code", JString "REFRESH_ERROR")]
        ∧ carries_cors request env r
        ∧ TOKENS w' = TOKENS w).
Proof.
  intros Hm Hp Ho. rewrite (fetch_token_route _ _ _ Hm Hp).
  repeat split.
  - intros Hsid. rewrite (handleToken_no_session _ _ _ Hsid).
    destruct (corsResponse_returns request env 401 (Some [
      ("error", Some (JString "Not authenticated"));
      ("code", Some (JString "NO_SESSION"))]) ∅ o Ho) as [r Hr].
    exists r. rewrite Hr. split; [done|].
    pose proof (corsResponse_carries_cors _ _ _ _ _ _ only_cookie_empty Hr).
    apply corsResponse_Normal in Hr as (? & ? & ? & ? & ?). done.
  - intros sid Hsid Hnone. rewrite (handleToken_session_expired _ _ _ _ Hsid Hnone).
    destruct (corsResponse_returns request env 401 (Some [
      ("error", Some (JString "Session expired"));
      ("code", Some (JString "SESSION_EXPIRED"))]) ∅ o Ho) as [r Hr].
    exists r, (log (KVGet sid) w). rewrite Hr. split; [done|].
    pose proof (corsResponse_carries_cors _ _ _ _ _ _ only_cookie_empty Hr).
    apply corsResponse_Normal in Hr as (? & ? & ? & ? & ?). done.
  - intros sid entry tokens Hsid Hentry Hup Herr.
    rewrite (handleToken_refresh_failed _ _ _ _ _ _ Hsid Hentry Hup Herr).
    destruct (corsResponse_returns request env 401 (Some [
      ("error", Some (JString "Session invalidated"));
      ("code", Some (JString "REFRESH_FAILED"))])
      {[ "Set-Cookie" := buildSessionCookie "" 0 ]} o Ho) as [r Hr].
    eexists r, _. rewrite Hr. split; [done|].
    pose proof (corsResponse_carries_cors _ _ _ _ _ _
                  (only_cookie_singleton (buildSessionCookie "" 0)) Hr).
    apply corsResponse_Normal in Hr as (? & ? & ? & ? & Hh).
    repeat split; try done.
    + rewrite Hh. apply lookup_union_Some_l. apply lookup_singleton_eq.
    + cbn. apply lookup_delete_eq.
  - intros sid entry tokens err Hsid Hentry Hup Herr Hne Hother.
    rewrite (handleToken_refresh_error _ _ _ _ _ _ _ Hsid Hentry Hup Herr Hne Hother).
    destruct (corsResponse_returns request env 500 (Some [
      ("error", Some (JString "Token refresh failed"));
      ("code", Some (JString "REFRESH_ERROR"))]) ∅ o Ho) as [r Hr].
    eexists r, _. rewrite Hr. split; [done|].
    pose proof (corsResponse_carries_cors _ _ _ _ _ _ only_cookie_empty Hr).
    apply corsResponse_Normal in Hr as (? & ? & ? & ? & ?). done.
Qed.

(** C1 fails on a request whose [Referer] header is no URL.  A request for
    [/auth/token] without session identifier, without an allowed [Origin]
    and with such a [Referer] gets no [401 NO_SESSION]: [corsResponse]
    calls [getRequestOrigin], [new URL(referer)] throws, and as the handler
    was returned without [await] the promise of [fetch] is rejected with
    that [TypeError]. *)
Theorem token_rejected_on_unparsable_referer (request : Request) (env : Env)
    (w : World) (referer : string) :
  method request ≠ "OPTIONS" →
  pathname (url request) = "/auth/token" →
  getSessionId request = None →
  Js.truthy (headers_get request "Origin")
    && Js.includes (getAllowedOrigins env) (Js.narrowed (headers_get request "Origin")) = false →
  headers_get request "Referer" = Some referer →
  referer ≠ "" →
  url_origin referer = None →
  fetch request env w = (Normal (Thrown (TypeError "Invalid URL")), w).
Proof.
  intros Hm Hp Hsid Horg Href Hne Hurl.
  rewrite (fetch_token_route _ _ _ Hm Hp), (handleToken_no_session _ _ _ Hsid).
  by rewrite (corsResponse_Thrown _ _ _ _ _ _
                (getRequestOrigin_throws _ _ _ Horg Href Hne Hurl)).
Qed.

End TokenClaims.

(** ** The shape of every response *)

Ltac run_handler :=
  unfold async, bind, try_catch, ret, resolve, await, lift,
    TOKENS_get, TOKENS_put, TOKENS_delete, fetch_token, console_error,
    Date_now, crypto_randomUUID in *.

Ltac built :=
  match goal with
  | Hr : corsResponse _ _ ?code ?b ∅ = Normal _ |- _ =>
      exists code, b, ∅; split; [apply only_cookie_empty | exact Hr]
  | Hr : corsResponse _ _ ?code ?b {[ "Set-Cookie" := ?c ]} = Normal _ |- _ =>
      exists code, b, {[ "Set-Cookie" := c ]};
      split; [apply only_cookie_singleton | exact Hr]
  end.

Section Shapes.

Context `{Platform}.

Lemma built_carries_cors (request : Request) (env : Env) (r : Response) :
  built_by_corsResponse request env r → carries_cors request env r.
Proof. intros (code & b & extra & Hextra & Hr). by eapply corsResponse_carries_cors. Qed.

Lemma handleToken_shape (request : Request) (env : Env) (w w' : World) (r : Response) :
  handleToken request env w = (Normal (Normal r), w') →
  built_by_corsResponse request env r.
Proof.
  unfold handleToken. run_handler. intros Hrun.
  repeat (case_match; simplify_eq); built.
Qed.

Lemma handleLogout_shape (request : Request) (env : Env) (w w' : World) (r : Response) :
  handleLogout request env w = (Normal (Normal r), w') →
  built_by_corsResponse request env r.
Proof.
  unfold handleLogout. run_handler. intros Hrun.
  repeat (case_match; simplify_eq); built.
Qed.

Lemma handleStatus_shape (request : Request) (env : Env) (w w' : World) (r : Response) :
  handleStatus request env w = (Normal (Normal r), w') →
  built_by_corsResponse request env r.
Proof.
  unfold handleStatus. run_handler. intros Hrun.
  repeat (case_match; simplify_eq); built.
Qed.

End Shapes.

Section Redirects.

Context `{Platform}.

Lemma Response_redirect_no_cors (target : string) (code : Z) :
  carries_no_cors (Response_redirect target code).
Proof. by repeat split. Qed.

Lemma handleLogin_Normal (request : Request) (env : Env) (u : URL) (r : Response) :
  handleLogin request env u = Normal r →
  ∃ o, r = Response_redirect (authUrl env u o) 302.
Proof.
  unfold handleLogin. intros Hr.
  repeat (case_match; simplify_eq); eauto.
Qed.

(** [handleLogin] throws only what [getRequestOrigin] throws. *)
Lemma handleLogin_Thrown (request : Request) (env : Env) (u : URL) (e : Exn) :
  handleLogin request env u = Thrown e →
  getRequestOrigin request env = Thrown e.
Proof.
  unfold handleLogin. intros Hr.
  repeat (case_match; simplify_eq); done.
Qed.

Lemma handleCallback_shape (request : Request) (env : Env) (u : URL)
    (w w' : World) (r : Response) :
  handleCallback request env u w = (Normal (Normal r), w') →
  status r = 302 ∧ carries_no_cors r.
Proof.
  unfold handleCallback. run_handler. intros Hrun.
  repeat (case_match; simplify_eq);
    (split; [reflexivity | by repeat split]).
Qed.

(** Every response of the worker: built by [corsResponse] on the preflight
    and on the three JSON endpoints, a redirect without CORS headers on
    [/auth/login] and [/auth/callback], and the bare 404 elsewhere. *)
Lemma fetch_response (request : Request) (env : Env) (w w' : World) (r : Response) :
  fetch request env w = (Normal (Normal r), w') →
  ((method request = "OPTIONS"
    ∨ pathname (url request) = "/auth/token"
    ∨ pathname (url request) = "/auth/logout"
    ∨ pathname (url request) = "/auth/status")
   ∧ built_by_corsResponse request env r)
  ∨ (method request ≠ "OPTIONS"
     ∧ (pathname (url request) = "/auth/login" ∨ pathname (url request) = "/auth/callback")
     ∧ status r = 302 ∧ carries_no_cors r)
  ∨ (method request ≠ "OPTIONS"
     ∧ (pathname (url request) ∉ ["/auth/login"; "/auth/callback"; "/auth/token";
                                   "/auth/logout"; "/auth/status"])
     ∧ status r = 404 ∧ carries_no_cors r).
Proof.
  intros Hrun.
  destruct (decide (method request = "OPTIONS")) as [Hm|Hm].
  { rewrite (fetch_preflight _ _ _ Hm) in Hrun. simplify_eq.
    left. split; [by left|]. built. }
  destruct (decide (pathname (url request) = "/auth/login")) as [Hp|Hlogin].
  { rewrite (fetch_login _ _ _ Hm Hp) in Hrun.
    destruct (handleLogin request env (url request)) as [r0|e] eqn:Hlogin.
    - simplify_eq. apply handleLogin_Normal in Hlogin as [o ->].
      right; left. repeat split; auto.
    - apply handleLogin_Thrown in Hlogin.
      rewrite (corsResponse_Thrown _ _ _ _ _ _ Hlogin) in Hrun. simplify_eq. }
  destruct (decide (pathname (url request) = "/auth/callback")) as [Hp|Hcallback].
  { rewrite (fetch_callback _ _ _ Hm Hp) in Hrun.
    apply handleCallback_shape in Hrun as [? ?]. right; left. auto. }
  destruct (decide (pathname (url request) = "/auth/token")) as [Hp|Htoken].
  { rewrite (fetch_token_route _ _ _ Hm Hp) in Hrun.
    apply handleToken_shape in Hrun. left. auto. }
  destruct (decide (pathname (url request) = "/auth/logout")) as [Hp|Hlogout].
  { rewrite (fetch_logout _ _ _ Hm Hp) in Hrun.
    apply handleLogout_shape in Hrun. left. auto. }
  destruct (decide (pathname (url request) = "/auth/status")) as [Hp|Hstatus].
  { rewrite (fetch_status _ _ _ Hm Hp) in Hrun.
    apply handleStatus_shape in Hrun. left. auto. }
  rewrite fetch_not_found in Hrun by done. simplify_eq.
  right; right. split; [done|]. split; [|by repeat split].
  rewrite !elem_of_cons, elem_of_nil. tauto.
Qed.

End Redirects.

(** ** CORS headers *)

Section CorsClaims.

Context `{Platform}.



(** C5 (as amended): every response built by [corsResponse], that is the
    preflight and every response of [/auth/token], [/auth/logout] and
    [/auth/status], carries the CORS headers computed by
    [getRequestOrigin], with [Access-Control-Allow-Credentials: true]; the
    redirects of [/auth/login] and [/auth/callback] carry none of them. *)
Theorem cors_headers_by_route (request : Request) (env : Env) (w w' : World)
    (r : Response) :
  fetch request env w = (Normal (Normal r), w') →
  ((method request = "OPTIONS"
    ∨ pathname (url request) = "/auth/token"
    ∨ pathname (url request) = "/auth/logout"
    ∨ pathname (url request) = "/auth/status") →
   carries_cors request env r
   ∧ headers r !! "Access-Control-Allow-Credentials" = Some "true")
  ∧ (method request ≠ "OPTIONS" →
     pathname (url request) = "/auth/login" ∨ pathname (url request) = "/auth/callback" →
     status r = 302 ∧ carries_no_cors r).
Proof.
  intros Hrun.
  destruct (fetch_response _ _ _ _ _ Hrun)
    as [[Hroute Hbuilt]|[(Hm & Hroute & Hst & Hno)|(Hm & Hroute & Hst & Hno)]].
  - apply built_carries_cors in Hbuilt. split.
    + intros _. split; [done|]. by destruct Hbuilt as (o & _ & _ & Hc & _).
    + intros Hm Hp. exfalso.
      destruct Hroute as [?|Hroute]; [done|].
      destruct Hp as [Hp|Hp]; rewrite Hp in Hroute;
        destruct Hroute as [Hr|[Hr|Hr]]; discriminate Hr.
  - split; [|done]. intros Hp. exfalso.
    destruct Hp as [?|Hp]; [done|].
    destruct Hroute as [Hr|Hr]; rewrite Hr in Hp;
      destruct Hp as [Hp|[Hp|Hp]]; discriminate Hp.
  - split.
    + intros Hp. exfalso. destruct Hp as [?|Hp]; [done|]. apply Hroute.
      rewrite !elem_of_cons. tauto.
    + intros _ Hp. exfalso. apply Hroute. rewrite !elem_of_cons. tauto.
Qed.

End CorsClaims.

(** ** Origin resolution *)

Section OriginClaims.

Context `{Platform}.

Lemma handleLogin_resolve (request : Request) (env : Env) (u : URL) (r : Response) :
  handleLogin request env u = Normal r →
  r = Response_redirect
        (authUrl env u
           (Spec.resolve (getAllowedOrigins env)
              [Spec.present (searchParams_get (searchParams u) "origin");
               Spec.present (headers_get request "Origin");
               referer_candidate request])) 302.
Proof.
  unfold handleLogin. intros Hr.
  destruct (searchParams_get (searchParams u) "origin") as [p|] eqn:Hparam; simpl.
  - unfold Js.truthy in Hr. destruct (String.eqb_spec p ""); simpl in Hr.
    + destruct (getRequestOrigin request env) as [o|exn] eqn:Ho; [|done].
      simplify_eq. by rewrite (getRequestOrigin_resolve _ _ _ Ho).
    + destruct (Js.includes (getAllowedOrigins env) p); [by simplify_eq|].
      destruct (getRequestOrigin request env) as [o|exn] eqn:Ho; [|done].
      simplify_eq. by rewrite (getRequestOrigin_resolve _ _ _ Ho).
  - destruct (getRequestOrigin request env) as [o|exn] eqn:Ho; [|done].
    simplify_eq. by rewrite (getRequestOrigin_resolve _ _ _ Ho).
Qed.

Lemma handleLogin_returns (request : Request) (env : Env) (u : URL) :
  (∃ p, Spec.present (searchParams_get (searchParams u) "origin") = Some p
        ∧ p ∈ getAllowedOrigins env)
  ∨ (∃ o, getRequestOrigin request env = Normal o) →
  ∃ r, handleLogin request env u = Normal r.
Proof.
  unfold handleLogin. intros [(p & Hp & Hin)|[o Ho]].
  - apply present_truthy in Hp as [-> Htruthy]. rewrite Htruthy.
    apply includes_true in Hin. rewrite Hin. simpl. eauto.
  - rewrite Ho. repeat case_match; simplify_eq; eauto.
Qed.

(** C6 (as amended): for [/auth/login] the origin that goes into the
    redirect is resolved from the [origin] query parameter, the [Origin]
    header and the origin of the [Referer] URL, in this order: the first
    of them on the allow-list, and the first allow-list entry without one.
    A login request produces its redirect whenever one of the first two
    tiers decides, or the [Referer] header is missing or holds a URL.  The
    origin of the CORS headers is resolved from the two headers alone: no
    query parameter is looked at.  Neither resolution has an effect: a
    login request that is answered leaves the world as it was. *)
Theorem origin_resolution (request : Request) (env : Env) :
  (∀ r, handleLogin request env (url request) = Normal r →
     r = Response_redirect
           (authUrl env (url request)
              (Spec.resolve (getAllowedOrigins env)
                 [Spec.present (searchParams_get (searchParams (url request)) "origin");
                  Spec.present (headers_get request "Origin");
                  referer_candidate request])) 302)
  ∧ ((∃ p, Spec.present (searchParams_get (searchParams (url request)) "origin") = Some p
           ∧ p ∈ getAllowedOrigins env)
     ∨ (∃ o, Spec.present (headers_get request "Origin") = Some o
             ∧ o ∈ getAllowedOrigins env)
     ∨ Spec.present (headers_get request "Referer") = None
     ∨ is_Some (referer_candidate request) →
     ∃ r, handleLogin request env (url request) = Normal r)
  ∧ (∀ o, getRequestOrigin request env = Normal o →
     o = Spec.resolve (getAllowedOrigins env)
           [Spec.present (headers_get request "Origin"); referer_candidate request])
  ∧ (∀ w w' r,
     method request ≠ "OPTIONS" → pathname (url request) = "/auth/login" →
     fetch request env w = (Normal (Normal r), w') →
     handleLogin request env (url request) = Normal r ∧ w' = w).
Proof.
  split; [apply handleLogin_resolve|]. split; [|split; [apply getRequestOrigin_resolve|]].
  - intros [Hparam|Hheaders]; apply handleLogin_returns; [by left|right].
    by apply getRequestOrigin_returns.
  - intros w w' r Hm Hp Hrun. rewrite (fetch_login _ _ _ Hm Hp) in Hrun.
    destruct (handleLogin request env (url request)) as [r0|exn] eqn:Hlogin;
      [by simplify_eq|].
    apply handleLogin_Thrown in Hlogin.
    rewrite (corsResponse_Thrown _ _ _ _ _ _ Hlogin) in Hrun. simplify_eq.
Qed.

End OriginClaims.

(** ** [/auth/callback] *)

Section Callback.

Context `{Platform}.

Lemma append_assoc (a b c : string) : (a +:+ b) +:+ c = a +:+ b +:+ c.
Proof.
  induction a as [|x a IH]; [reflexivity|].
  change (String x ((a +:+ b) +:+ c) = String x (a +:+ b +:+ c)). by f_equal.
Qed.

Lemma buildSessionCookie_eq (sessionId : string) (maxAge : Z) :
  buildSessionCookie sessionId maxAge =
  "session=" +:+ sessionId +:+ "; HttpOnly; Secure; SameSite=None; Max-Age="
    +:+ pretty maxAge +:+ "; Path=/".
Proof.
  unfold buildSessionCookie. cbn [foldl].
  rewrite !append_assoc. reflexivity.
Qed.




End Callback.

(** ** [/auth/status] *)

Section Status.

Context `{Platform}.

(** The status probe settles for every request, reads the namespace at
    most once, writes nothing to it and never calls the token endpoint. *)
Theorem status_is_read_only (request : Request) (env : Env) (w : World) :
  method request ≠ "OPTIONS" →
  pathname (url request) = "/auth/status" →
  ∃ p w' evs,
    fetch request env w = (Normal p, w')
    ∧ TOKENS w' = TOKENS w
    ∧ trace w' = (trace w ++ evs)%list
    ∧ Forall (λ ev, is_upstream_call ev = false ∧ is_store_write ev = false) evs.
Proof.
  intros Hm Hp. rewrite (fetch_status _ _ _ Hm Hp). unfold handleStatus.
  destruct (Js.truthy (getSessionId request)); cbn [negb].
  - unfold async, bind, TOKENS_get, lift.
    destruct (kv_value <$> TOKENS w !! Js.narrowed (getSessionId request));
      eexists _, _, [_]; (split; [reflexivity|]);
      repeat split; by repeat constructor.
  - unfold async, lift. eexists _, _, []. split; [reflexivity|].
    repeat split; [by rewrite app_nil_r|constructor].
Qed.

(** What the probe answers, for the requests whose CORS origin
    [getRequestOrigin] computes: [200] with [authenticated: false] without
    a session identifier or without a record under it, [200] with
    [authenticated: true] and the record's creation time otherwise. *)
Theorem status_answers_when_origin_resolves (request : Request) (env : Env)
    (w : World) (o : string) :
  method request ≠ "OPTIONS" →
  pathname (url request) = "/auth/status" →
  getRequestOrigin request env = Normal o →
  ∃ r w',
    fetch request env w = (Normal (Normal r), w')
    ∧ status r = 200
    ∧ carries_cors request env r
    ∧ body r =
        match getSessionId request ≫= (λ sid, TOKENS w !! sid) with
        | Some entry => Json [("authenticated", JBool true);
                              ("sessionCreated", JNumber (created (kv_value entry)))]
        | None => Json [("authenticated", JBool false)]
        end.
Proof.
  intros Hm Hp Ho. rewrite (fetch_status _ _ _ Hm Hp). unfold handleStatus.
  destruct (getSessionId request) as [sid|] eqn:Hsid.
  - rewrite (getSessionId_truthy _ _ Hsid). cbn [negb Js.narrowed mbind option_bind].
    unfold async, bind, TOKENS_get, lift.
    destruct (TOKENS w !! sid) as [entry|]; cbn [fmap option_fmap option_map].
    + destruct (corsResponse_returns request env 200 (Some [
        ("authenticated", Some (JBool true));
        ("sessionCreated", Some (JNumber (created (kv_value entry))))]) ∅ o Ho) as [r Hr].
      eexists r, _. rewrite Hr. split; [done|].
      pose proof (corsResponse_carries_cors _ _ _ _ _ _ only_cookie_empty Hr).
      apply corsResponse_Normal in Hr as (? & ? & ? & ? & ?). done.
    + destruct (corsResponse_returns request env 200 (Some [
        ("authenticated", Some (JBool false))]) ∅ o Ho) as [r Hr].
      eexists r, _. rewrite Hr. split; [done|].
      pose proof (corsResponse_carries_cors _ _ _ _ _ _ only_cookie_empty Hr).
      apply corsResponse_Normal in Hr as (? & ? & ? & ? & ?). done.
  - cbn [Js.truthy negb mbind option_bind]. unfold async, lift.
    destruct (corsResponse_returns request env 200 (Some [
      ("authenticated", Some (JBool false))]) ∅ o Ho) as [r Hr].
    eexists r, _. rewrite Hr. split; [done|].
    pose proof (corsResponse_carries_cors _ _ _ _ _ _ only_cookie_empty Hr).
    apply corsResponse_Normal in Hr as (? & ? & ? & ? & ?). done.
Qed.

(** C7 fails on a request whose [Referer] header is no URL: the probe does
    not return its 200.  Without session identifier and without an allowed
    [Origin], [corsResponse] throws the [TypeError] of [new URL(referer)],
    and the promise of [fetch] is rejected with it. *)
Theorem status_rejected_on_unparsable_referer (request : Request) (env : Env)
    (w : World) (referer : string) :
  method request ≠ "OPTIONS" →
  pathname (url request) = "/auth/status" →
  getSessionId request = None →
  Js.truthy (headers_get request "Origin")
    && Js.includes (getAllowedOrigins env) (Js.narrowed (headers_get request "Origin")) = false →
  headers_get request "Referer" = Some referer →
  referer ≠ "" →
  url_origin referer = None →
  fetch request env w = (Normal (Thrown (TypeError "Invalid URL")), w).
Proof.
  intros Hm Hp Hsid Horg Href Hne Hurl.
  rewrite (fetch_status _ _ _ Hm Hp). unfold handleStatus. rewrite Hsid.
  cbn [Js.truthy negb]. unfold async, lift.
  by rewrite (corsResponse_Thrown _ _ _ _ _ _
                (getRequestOrigin_throws _ _ _ Horg Href Hne Hurl)).
Qed.

End Status.

(** ** [/auth/logout] *)

Section Logout.

Context `{Platform}.

Lemma handleLogout_eq (request : Request) (env : Env) (w : World) :
  handleLogout request env w =
  (Normal (corsResponse request env 200 (Some [("success", Some (JBool true))])
             {[ "Set-Cookie" := buildSessionCookie "" 0 ]}),
   match getSessionId request with
   | Some sid => log (KVDelete sid) (set_TOKENS (delete sid) w)
   | None => w
   end).
Proof.
  unfold handleLogout. destruct (getSessionId request) as [sid|] eqn:Hsid.
  - by rewrite (getSessionId_truthy _ _ Hsid).
  - reflexivity.
Qed.

(** Logging out twice is logging out once, as far as the namespace and the
    outcome go: the record under the session identifier is deleted, present
    or not, and the second call settles as the first did and leaves the
    namespace as the first left it. *)
Theorem logout_is_idempotent (request : Request) (env : Env) (w : World) :
  method request ≠ "OPTIONS" →
  pathname (url request) = "/auth/logout" →
  ∃ p w1 w2,
    fetch request env w = (Normal p, w1)
    ∧ fetch request env w1 = (Normal p, w2)
    ∧ TOKENS w2 = TOKENS w1
    ∧ TOKENS w1 =
        match getSessionId request with
        | Some sid => delete sid (TOKENS w)
        | None => TOKENS w
        end.
Proof.
  intros Hm Hp.
  eexists _, _, _. rewrite (fetch_logout _ _ w Hm Hp), handleLogout_eq.
  split; [reflexivity|]. rewrite (fetch_logout _ _ _ Hm Hp), handleLogout_eq.
  split; [reflexivity|].
  destruct (getSessionId request) as [sid|]; cbn; [|done].
  split; [|done]. apply delete_delete_eq.
Qed.

(** What logout answers, for the requests whose CORS origin
    [getRequestOrigin] computes: [200] with [success: true] and the cookie
    cleared, whether or not there was a cookie or a record. *)
Theorem logout_answers_when_origin_resolves (request : Request) (env : Env)
    (w : World) (o : string) :
  method request ≠ "OPTIONS" →
  pathname (url request) = "/auth/logout" →
  getRequestOrigin request env = Normal o →
  ∃ r w',
    fetch request env w = (Normal (Normal r), w')
    ∧ status r = 200
    ∧ body r = Json [("success", JBool true)]
    ∧ headers r !! "Set-Cookie" =
        Some "session=; HttpOnly; Secure; SameSite=None; Max-Age=0; Path=/"
    ∧ carries_cors request env r
    ∧ ∀ sid, getSessionId request = Some sid → TOKENS w' !! sid = None.
Proof.
  intros Hm Hp Ho. rewrite (fetch_logout _ _ _ Hm Hp), handleLogout_eq.
  destruct (corsResponse_returns request env 200 (Some [("success", Some (JBool true))])
              {[ "Set-Cookie" := buildSessionCookie "" 0 ]} o Ho) as [r Hr].
  eexists r, _. rewrite Hr. split; [done|].
  pose proof (corsResponse_carries_cors _ _ _ _ _ _
                (only_cookie_singleton (buildSessionCookie "" 0)) Hr).
  apply corsResponse_Normal in Hr as (? & ? & ? & ? & Hh).
  repeat split; try done.
  - rewrite Hh. apply lookup_union_Some_l. apply lookup_singleton_eq.
  - intros sid ->. cbn. apply lookup_delete_eq.
Qed.

(** C8 fails on a request whose [Referer] header is no URL: the logout
    errors.  The record is deleted, and then [corsResponse] throws the
    [TypeError] of [new URL(referer)]; no [200] is returned and the cookie
    is not cleared. *)
Theorem logout_rejected_on_unparsable_referer (request : Request) (env : Env)
    (w : World) (referer : string) :
  method request ≠ "OPTIONS" →
  pathname (url request) = "/auth/logout" →
  Js.truthy (headers_get request "Origin")
    && Js.includes (getAllowedOrigins env) (Js.narrowed (headers_get request "Origin")) = false →
  headers_get request "Referer" = Some referer →
  referer ≠ "" →
  url_origin referer = None →
  ∃ w', fetch request env w = (Normal (Thrown (TypeError "Invalid URL")), w').
Proof.
  intros Hm Hp Horg Href Hne Hurl.
  rewrite (fetch_logout _ _ _ Hm Hp), handleLogout_eq.
  rewrite (corsResponse_Thrown _ _ _ _ _ _
             (getRequestOrigin_throws _ _ _ Horg Href Hne Hurl)).
  eauto.
Qed.

End Logout.

(** ** The catch-all *)

Section CatchAll.

Context `{Platform}.

(** C9 fails: an exception leaves [fetch].  On [/auth/login] with no
    allowed [origin] parameter or [Origin] header and with a [Referer] that
    is no URL, [handleLogin] throws inside the [try] block; the [catch]
    clause logs the error and calls [corsResponse], which parses the same
    [Referer] and throws again.  The promise of [fetch] is rejected: no 500
    response is produced. *)
Theorem login_exception_leaves_catch_all (request : Request) (env : Env)
    (w : World) (referer : string) :
  method request ≠ "OPTIONS" →
  pathname (url request) = "/auth/login" →
  Js.truthy (searchParams_get (searchParams (url request)) "origin")
    && Js.includes (getAllowedOrigins env)
         (Js.narrowed (searchParams_get (searchParams (url request)) "origin")) = false →
  Js.truthy (headers_get request "Origin")
    && Js.includes (getAllowedOrigins env) (Js.narrowed (headers_get request "Origin")) = false →
  headers_get request "Referer" = Some referer →
  referer ≠ "" →
  url_origin referer = None →
  handleLogin request env (url request) = Thrown (TypeError "Invalid URL")
  ∧ fetch request env w =
    (Normal (Thrown (TypeError "Invalid URL")), log (ConsoleError "Worker error:") w).
Proof.
  intros Hm Hp Hparam Horg Href Hne Hurl.
  pose proof (getRequestOrigin_throws _ _ _ Horg Href Hne Hurl) as Hthrow.
  assert (Hlogin : handleLogin request env (url request) = Thrown (TypeError "Invalid URL")).
  { unfold handleLogin.
    destruct (searchParams_get (searchParams (url request)) "origin") as [p|].
    - change (Js.narrowed (Some p)) with p in Hparam. by rewrite Hparam, Hthrow.
    - by rewrite Hthrow. }
  split; [done|].
  rewrite (fetch_login _ _ _ Hm Hp), Hlogin.
  by rewrite (corsResponse_Thrown _ _ _ _ _ _ Hthrow).
Qed.

(** The handlers returned without [await] are out of reach of the [catch]
    clause altogether: when the token endpoint cannot be reached during
    [/auth/token], the exception is the rejection of the promise of
    [fetch], and the catch-all logs nothing. *)
Lemma upstream_failure_bypasses_catch_all (request : Request) (env : Env)
    (w : World) (sid : string) (entry : KVEntry) (e : Exn) :
  method request ≠ "OPTIONS" →
  pathname (url request) = "/auth/token" →
  getSessionId request = Some sid →
  TOKENS w !! sid = Some entry →
  token_endpoint (RefreshTokenGrant (refresh_token (kv_value entry))
                    (GOOGLE_CLIENT_ID env) (GOOGLE_CLIENT_SECRET env)) = Thrown e →
  fetch request env w =
  (Normal (Thrown e),
   log (TokenEndpoint (RefreshTokenGrant (refresh_token (kv_value entry))
          (GOOGLE_CLIENT_ID env) (GOOGLE_CLIENT_SECRET env)))
     (log (KVGet sid) w)).
Proof.
  intros Hm Hp Hsid Hentry Hup.
  rewrite (fetch_token_route _ _ _ Hm Hp). unfold handleToken. rewrite Hsid.
  rewrite (getSessionId_truthy _ _ Hsid). cbn [negb Js.narrowed].
  unfold async, bind, TOKENS_get, fetch_token.
  rewrite Hentry. cbn [fmap option_fmap option_map]. by rewrite Hup.
Qed.

(** The catch-all never answers: no response of the worker is the 500
    response of the [catch] clause. *)
Theorem catch_all_never_answers (request : Request) (env : Env) (w w' : World)
    (r : Response) :
  fetch request env w = (Normal (Normal r), w') →
  body r ≠ Json [("error", JString "Internal server error")].
Proof.
  intros Hrun Hbody.
  destruct (decide (method request = "OPTIONS")) as [Hm|Hm].
  { rewrite (fetch_preflight _ _ _ Hm) in Hrun. injection Hrun as Hr _.
    apply corsResponse_Normal in Hr as (? & ? & ? & Hb & ?). congruence. }
  destruct (decide (pathname (url request) = "/auth/login")) as [Hp|Hlogin].
  { rewrite (fetch_login _ _ _ Hm Hp) in Hrun.
    destruct (handleLogin request env (url request)) as [r0|exn] eqn:Hlogin.
    - simplify_eq. by apply handleLogin_Normal in Hlogin as [o ->].
    - apply handleLogin_Thrown in Hlogin.
      rewrite (corsResponse_Thrown _ _ _ _ _ _ Hlogin) in Hrun. simplify_eq. }
  destruct (decide (pathname (url request) = "/auth/callback")) as [Hp|Hcallback].
  { rewrite (fetch_callback _ _ _ Hm Hp) in Hrun. revert Hrun.
    unfold handleCallback. run_handler. intros Hrun.
    repeat (case_match; simplify_eq); done. }
  destruct (decide (pathname (url request) = "/auth/token")) as [Hp|Htoken].
  { rewrite (fetch_token_route _ _ _ Hm Hp) in Hrun. revert Hrun.
    unfold handleToken. run_handler. intros Hrun.
    repeat (case_match; simplify_eq);
      match goal with
      | Hr : corsResponse _ _ _ _ _ = Normal _ |- _ =>
          apply corsResponse_Normal in Hr as (? & ? & ? & Hb & ?)
      end; rewrite Hbody in Hb; try discriminate Hb.
    unfold json_object in Hb.
    destruct (access_token _), (expires_in _); discriminate Hb. }
  destruct (decide (pathname (url request) = "/auth/logout")) as [Hp|Hlogout].
  { rewrite (fetch_logout _ _ _ Hm Hp), handleLogout_eq in Hrun.
    injection Hrun as Hr _.
    apply corsResponse_Normal in Hr as (? & ? & ? & Hb & ?).
    rewrite Hbody in Hb. discriminate Hb. }
  destruct (decide (pathname (url request) = "/auth/status")) as [Hp|Hstatus].
  { rewrite (fetch_status _ _ _ Hm Hp) in Hrun. revert Hrun.
    unfold handleStatus. run_handler. intros Hrun.
    repeat (case_match; simplify_eq);
      match goal with
      | Hr : corsResponse _ _ _ _ _ = Normal _ |- _ =>
          apply corsResponse_Normal in Hr as (? & ? & ? & Hb & ?)
      end; rewrite Hbody in Hb; discriminate Hb. }
  rewrite fetch_not_found in Hrun by done. by simplify_eq.
Qed.

End CatchAll.

(** ** The issued cookie *)

Lemma hex_digit_not_semicolon (n : N) : Js.hex_digit n ≠ ";"%char.
Proof.
  unfold Js.hex_digit. destruct n as [|p]; [discriminate|].
  do 4 (try destruct p as [p|p|]); discriminate.
Qed.

Section IssuedCookie.

Context `{Platform}.

(** The identifier that [crypto.randomUUID] returns is read back by
    [getSessionId] from the cookie that carries it: the browser sends
    [session=<identifier>]. *)
Theorem issued_identifier_reads_back (w : World) :
  ∃ sessionId,
    crypto_randomUUID w = (Normal sessionId, next_draw w)
    ∧ ∀ request,
        headers_get request "Cookie" = Some ("session=" +:+ sessionId) →
        getSessionId request = Some sessionId.
Proof.
  unfold crypto_randomUUID. eexists. split; [reflexivity|].
  intros request Hcookie. unfold getSessionId. rewrite Hcookie.
  match goal with
  | |- Js.match_session (Js.or_else (Some ("session=" +:+ ?s)) "") = _ =>
      change (Js.or_else (Some ("session=" +:+ s)) "") with ("session=" +:+ s)
  end.
  apply match_session_at_start; [discriminate|].
  cbn [Js.hex_bytes Js.hex_byte list_ascii_of_string].
  rewrite !elem_of_cons, elem_of_nil.
  intros Hin.
  repeat (destruct Hin as [Hin|Hin];
          [first [discriminate Hin | by apply eq_sym, hex_digit_not_semicolon in Hin]|]).
  done.
Qed.

End IssuedCookie.

(** * Further properties of the worker *)

(** ** Strings *)

Lemma append_nil_r (s : string) : s +:+ "" = s.
Proof.
  induction s as [|c s IH]; [reflexivity|].
  change (String c (s +:+ "") = String c s). by f_equal.
Qed.

Lemma append_cons (c : ascii) (s t : string) : String c s +:+ t = String c (s +:+ t).
Proof. reflexivity. Qed.

Lemma chars_append (s t : string) :
  list_ascii_of_string (s +:+ t) = (list_ascii_of_string s ++ list_ascii_of_string t)%list.
Proof.
  induction s as [|c s IH]; [reflexivity|].
  rewrite append_cons. simpl. by f_equal.
Qed.

Lemma strip_prefix_Some (p s rest : string) :
  Js.strip_prefix p s = Some rest → s = p +:+ rest.
Proof.
  revert s. induction p as [|a p IH]; intros s; simpl.
  - by intros [= ->].
  - destruct s as [|b s]; [done|].
    destruct (Ascii.eqb_spec a b) as [->|]; [|done].
    intros Hs. rewrite append_cons. f_equal. by apply IH.
Qed.

Lemma strip_prefix_append (p rest : string) :
  Js.strip_prefix p (p +:+ rest) = Some rest.
Proof.
  induction p as [|a p IH]; [reflexivity|].
  rewrite append_cons. simpl. by rewrite Ascii.eqb_refl.
Qed.

(** A string is the run that [[^;]+] takes, followed by nothing or by a
    semicolon. *)
Lemma span_not_semicolon_split (s : string) :
  ∃ post, s = Js.span_not_semicolon s +:+ post
        ∧ (post = "" ∨ ∃ post', post = String ";" post').
Proof.
  induction s as [|c s (post & Hs & Hpost)]; simpl.
  - exists "". split; [reflexivity|by left].
  - destruct (Ascii.eqb_spec c ";") as [->|Hc].
    + exists (String ";" s). split; [reflexivity|right; eauto].
    + exists post. rewrite append_cons. split; [by f_equal|done].
Qed.

Lemma span_not_semicolon_chars (s : string) :
  ";"%char ∉ list_ascii_of_string (Js.span_not_semicolon s).
Proof.
  induction s as [|c s IH]; simpl; [apply not_elem_of_nil|].
  destruct (Ascii.eqb_spec c ";") as [->|Hc]; simpl; [apply not_elem_of_nil|].
  rewrite not_elem_of_cons. split; [congruence|done].
Qed.

Lemma span_not_semicolon_append (v rest : string) :
  ";"%char ∉ list_ascii_of_string v →
  rest = "" ∨ (∃ rest', rest = String ";" rest') →
  Js.span_not_semicolon (v +:+ rest) = v.
Proof.
  intros Hv Hrest. induction v as [|c v IH].
  - destruct Hrest as [->|[rest' ->]]; reflexivity.
  - rewrite append_cons. simpl in *. apply not_elem_of_cons in Hv as [Hc Hv].
    destruct (Ascii.eqb_spec c ";") as [->|_]; [done|]. f_equal. by apply IH.
Qed.

(** ** What [getSessionId] extracts *)

Lemma match_session_here_sound (s v : string) :
  Js.match_session_here s = Some v →
  ∃ post, s = "session=" +:+ v +:+ post
        ∧ v ≠ ""
        ∧ (";"%char ∉ list_ascii_of_string v)
        ∧ (post = "" ∨ ∃ post', post = String ";" post').
Proof.
  intros Hv. pose proof (match_session_here_nonempty _ _ Hv) as Hne.
  unfold Js.match_session_here in Hv.
  destruct (Js.strip_prefix "session=" s) as [rest|] eqn:Hstrip; [|done].
  cbv zeta in Hv. destruct (String.eqb (Js.span_not_semicolon rest) ""); [done|].
  injection Hv as <-. apply strip_prefix_Some in Hstrip.
  destruct (span_not_semicolon_split rest) as (post & Hrest & Hpost).
  exists post. split; [by rewrite <- Hrest|].
  split; [done|]. split; [apply span_not_semicolon_chars|done].
Qed.

Lemma match_session_sound (s v : string) :
  Js.match_session s = Some v →
  ∃ pre post, s = pre +:+ "session=" +:+ v +:+ post
            ∧ v ≠ ""
            ∧ (";"%char ∉ list_ascii_of_string v)
            ∧ (post = "" ∨ ∃ post', post = String ";" post').
Proof.
  induction s as [|c s IH]; rewrite match_session_unfold.
  - destruct (Js.match_session_here "") as [v0|] eqn:Hhere; [|done].
    intros [= ->]. apply match_session_here_sound in Hhere as (post & ? & ? & ? & ?).
    by exists "", post.
  - destruct (Js.match_session_here (String c s)) as [v0|] eqn:Hhere.
    + intros [= ->]. apply match_session_here_sound in Hhere as (post & ? & ? & ? & ?).
      by exists "", post.
    + intros (pre & post & -> & ? & ? & ?)%IH. by exists (String c pre), post.
Qed.

Lemma match_session_None_tail (c : ascii) (s : string) :
  Js.match_session (String c s) = None →
  Js.match_session_here (String c s) = None ∧ Js.match_session s = None.
Proof.
  rewrite match_session_unfold.
  by destruct (Js.match_session_here (String c s)).
Qed.

Lemma match_session_None_occurrence (pre post : string) (c : ascii) :
  Js.match_session (pre +:+ "session=" +:+ String c post) = None → c = ";"%char.
Proof.
  induction pre as [|a pre IH].
  - change ("" +:+ "session=" +:+ String c post)
      with (String "s" ("ession=" +:+ String c post)).
    intros [Hhere _]%match_session_None_tail. revert Hhere.
    unfold Js.match_session_here.
    change (Js.strip_prefix "session=" (String "s" ("ession=" +:+ String c post)))
      with (Some (String c post)).
    cbv beta iota zeta. simpl Js.span_not_semicolon.
    by destruct (Ascii.eqb_spec c ";").
  - rewrite append_cons. by intros [_ Htail%IH]%match_session_None_tail.
Qed.

(** The session identifier that [getSessionId] returns is never empty and
    holds no semicolon; it stands in the [Cookie] header right behind an
    occurrence of [session=] and runs to the next semicolon or to the end
    of the header. *)
Theorem getSessionId_sound (request : Request) (v : string) :
  getSessionId request = Some v →
  ∃ pre post,
    cookie_header request = pre +:+ "session=" +:+ v +:+ post
    ∧ v ≠ ""
    ∧ (";"%char ∉ list_ascii_of_string v)
    ∧ (post = "" ∨ ∃ post', post = String ";" post').
Proof. apply match_session_sound. Qed.

(** [getSessionId] reports that there is no session (returns [null])
    exactly when every occurrence of [session=] in the [Cookie] header is
    at the end of the header or followed by a semicolon; a missing header
    counts as the empty one. *)
Theorem getSessionId_None_iff (request : Request) :
  getSessionId request = None
  ↔ ∀ pre c post,
      cookie_header request = pre +:+ "session=" +:+ String c post → c = ";"%char.
Proof.
  unfold getSessionId. fold (cookie_header request). split.
  - intros Hnone pre c post Hcookie. rewrite Hcookie in Hnone.
    by eapply match_session_None_occurrence.
  - intros Hocc. destruct (Js.match_session (cookie_header request)) as [v|] eqn:Hv; [|done].
    apply match_session_sound in Hv as (pre & post & Hcookie & Hne & Hsemi & _).
    destruct v as [|c v]; [done|]. exfalso. apply Hsemi.
    rewrite (Hocc pre c (v +:+ post)); [simpl; left|done].
Qed.

Lemma match_session_leading (sessionId rest : string) :
  sessionId ≠ "" →
  ";"%char ∉ list_ascii_of_string sessionId →
  rest = "" ∨ (∃ rest', rest = String ";" rest') →
  Js.match_session ("session=" +:+ sessionId +:+ rest) = Some sessionId.
Proof.
  intros Hne Hsemi Hrest.
  rewrite match_session_unfold. unfold Js.match_session_here.
  rewrite strip_prefix_append. cbv beta iota zeta.
  rewrite span_not_semicolon_append by done.
  by destruct (String.eqb_spec sessionId "").
Qed.


(** A [Cookie] header that starts with the cookie [session=<identifier>]
    gives the identifier, whatever cookies follow it. *)
Theorem getSessionId_reads_leading_cookie (request : Request) (sessionId rest : string) :
  sessionId ≠ "" →
  ";"%char ∉ list_ascii_of_string sessionId →
  rest = "" ∨ (∃ rest', rest = String ";" rest') →
  headers_get request "Cookie" = Some ("session=" +:+ sessionId +:+ rest) →
  getSessionId request = Some sessionId.
Proof.
  intros Hne Hsemi Hrest Hcookie. unfold getSessionId. rewrite Hcookie.
  change (Js.or_else (Some ("session=" +:+ sessionId +:+ rest)) "")
    with ("session=" +:+ sessionId +:+ rest).
  by apply match_session_leading.
Qed.

(** The string that [buildSessionCookie] returns reads back: taken as a
    [Cookie] header, [getSessionId] finds the identifier it was built
    from, for every [Max-Age]. *)
Theorem session_cookie_round_trip (request : Request) (sessionId : string) (maxAge : Z) :
  sessionId ≠ "" →
  ";"%char ∉ list_ascii_of_string sessionId →
  headers_get request "Cookie" = Some (buildSessionCookie sessionId maxAge) →
  getSessionId request = Some sessionId.
Proof.
  intros Hne Hsemi Hcookie. unfold getSessionId. rewrite Hcookie.
  rewrite buildSessionCookie_eq.
  change (Js.or_else (Some ("session=" +:+ sessionId
            +:+ "; HttpOnly; Secure; SameSite=None; Max-Age="
            +:+ pretty maxAge +:+ "; Path=/")) "")
    with ("session=" +:+ sessionId
            +:+ "; HttpOnly; Secure; SameSite=None; Max-Age="
            +:+ pretty maxAge +:+ "; Path=/").
  apply match_session_leading; [done..|]. right. eexists. reflexivity.
Qed.

(** ** The allow-list that [getAllowedOrigins] reads *)

Lemma rev_app_acc (s acc : string) :
  String.rev_app s acc = String.rev_app s "" +:+ acc.
Proof.
  revert acc. induction s as [|c s IH]; intros acc; [reflexivity|].
  simpl. rewrite (IH (String c acc)), (IH (String c "")).
  by rewrite append_assoc.
Qed.

Lemma rev_cons (c : ascii) (s : string) :
  String.rev (String c s) = String.rev s +:+ String c "".
Proof. unfold String.rev. simpl. apply rev_app_acc. Qed.

Lemma rev_append (s t : string) :
  String.rev (s +:+ t) = String.rev t +:+ String.rev s.
Proof.
  induction s as [|c s IH].
  - change ("" +:+ t) with t. by rewrite append_nil_r.
  - rewrite append_cons, !rev_cons, IH. apply append_assoc.
Qed.

Lemma rev_involutive (s : string) : String.rev (String.rev s) = s.
Proof.
  induction s as [|c s IH]; [reflexivity|].
  rewrite rev_cons, rev_append, IH. reflexivity.
Qed.

Lemma rev_chars (c : ascii) (s : string) :
  c ∈ list_ascii_of_string (String.rev s) ↔ c ∈ list_ascii_of_string s.
Proof.
  induction s as [|a s IH]; [done|].
  rewrite rev_cons, chars_append. simpl.
  rewrite elem_of_app, !elem_of_cons, IH, elem_of_nil. tauto.
Qed.

Lemma trimStart_chars (c : ascii) (s : string) :
  c ∈ list_ascii_of_string (Js.trimStart s) → c ∈ list_ascii_of_string s.
Proof.
  induction s as [|a s IH]; simpl; [done|].
  destruct (Ascii.is_space a); [|done]. intros Hc. right. by apply IH.
Qed.

Lemma trim_chars (c : ascii) (s : string) :
  c ∈ list_ascii_of_string (Js.trim s) → c ∈ list_ascii_of_string s.
Proof.
  unfold Js.trim. intros Hc.
  by apply rev_chars, trimStart_chars, rev_chars, trimStart_chars in Hc.
Qed.

Lemma trimStart_idempotent (s : string) :
  Js.trimStart (Js.trimStart s) = Js.trimStart s.
Proof.
  induction s as [|a s IH]; simpl; [done|].
  destruct (Ascii.is_space a) eqn:Ha; [done|]. simpl. by rewrite Ha.
Qed.

Lemma trimStart_snoc (s : string) (c : ascii) :
  Ascii.is_space c = false →
  Js.trimStart (s +:+ String c "") = Js.trimStart s +:+ String c "".
Proof.
  intros Hc. induction s as [|a s IH].
  - change ("" +:+ String c "") with (String c ""). simpl. by rewrite Hc.
  - rewrite append_cons. simpl. destruct (Ascii.is_space a); [done|].
    by rewrite append_cons.
Qed.

(** Trimming the end of a string that has no leading white space leaves
    it without leading white space. *)
Lemma trimStart_after_trimEnd (u : string) :
  Js.trimStart u = u →
  Js.trimStart (String.rev (Js.trimStart (String.rev u)))
  = String.rev (Js.trimStart (String.rev u)).
Proof.
  destruct u as [|c u]; [done|]. simpl.
  destruct (Ascii.is_space c) eqn:Hc.
  - intros Hu. exfalso.
    assert (Hlen : (String.length (Js.trimStart u) ≤ String.length u)%nat).
    { clear. induction u as [|a u IH]; simpl; [lia|].
      destruct (Ascii.is_space a); simpl; lia. }
    rewrite Hu in Hlen. simpl in Hlen. lia.
  - intros _. rewrite rev_cons, (trimStart_snoc _ _ Hc), rev_append.
    change (String.rev (String c "")) with (String c "").
    rewrite append_cons. simpl. by rewrite Hc.
Qed.

Lemma trim_idempotent (s : string) : Js.trim (Js.trim s) = Js.trim s.
Proof.
  unfold Js.trim.
  rewrite (trimStart_after_trimEnd (Js.trimStart s)) by apply trimStart_idempotent.
  by rewrite rev_involutive, trimStart_idempotent.
Qed.

Lemma split_pieces (sep : ascii) (s x : string) :
  x ∈ Js.split sep s → sep ∉ list_ascii_of_string x.
Proof.
  revert x. induction s as [|c s IH]; intros x; simpl.
  - rewrite list_elem_of_singleton. intros ->. apply not_elem_of_nil.
  - destruct (Ascii.eqb_spec c sep) as [->|Hc].
    + rewrite elem_of_cons. intros [->|Hx]; [apply not_elem_of_nil|by apply IH].
    + pose proof (split_not_nil sep s) as Hnil.
      destruct (Js.split sep s) as [|y ys]; [done|].
      rewrite elem_of_cons. intros [->|Hx].
      * simpl. rewrite not_elem_of_cons. split; [congruence|].
        apply IH. left.
      * apply IH. by right.
Qed.

Lemma split_length (sep : ascii) (s : string) :
  length (Js.split sep s)
  = S (length (filter (λ c, c = sep) (list_ascii_of_string s))).
Proof.
  induction s as [|c s IH]; [reflexivity|]. simpl.
  rewrite filter_cons. destruct (Ascii.eqb_spec c sep) as [->|Hc].
  - rewrite decide_True by done. simpl. by rewrite IH.
  - rewrite decide_False by done. rewrite <- IH.
    pose proof (split_not_nil sep s). by destruct (Js.split sep s).
Qed.






(** Whatever the variable holds, the allow-list has one entry more than
    the variable has commas, and no entry holds a comma or starts or ends
    with white space: each is left as it is by [trim]. *)
Theorem getAllowedOrigins_entries (env : Env) :
  length (getAllowedOrigins env)
  = S (length (filter (λ c, c = ","%char) (list_ascii_of_string (ALLOWED_ORIGINS env))))
  ∧ ∀ o, o ∈ getAllowedOrigins env →
      (","%char ∉ list_ascii_of_string o) ∧ Js.trim o = o.
Proof.
  unfold getAllowedOrigins. split.
  - by rewrite length_map, split_length.
  - intros o (x & -> & Hx)%list_elem_of_fmap. split.
    + intros Hc%trim_chars. by apply split_pieces in Hx.
    + apply trim_idempotent.
Qed.

(** ** What each handler does, case by case *)

Section Outcomes.

Context `{Platform}.

Lemma corsResponse_without_cookie (request : Request) (env : Env) (code : Z)
    (b : option (list (string * option JsonValue))) (r : Response) :
  corsResponse request env code b ∅ = Normal r →
  headers r !! "Set-Cookie" = None.
Proof.
  intros (o & _ & _ & _ & ->)%corsResponse_Normal.
  rewrite lookup_union_r by apply lookup_empty. by simplify_map_eq.
Qed.

Lemma corsResponse_with_cookie (request : Request) (env : Env) (code : Z)
    (b : option (list (string * option JsonValue))) (c : string) (r : Response) :
  corsResponse request env code b {[ "Set-Cookie" := c ]} = Normal r →
  headers r !! "Set-Cookie" = Some c.
Proof.
  intros (o & _ & _ & _ & ->)%corsResponse_Normal.
  apply lookup_union_Some_l, lookup_singleton_eq.
Qed.

(** [handleToken], branch by branch: the promise it returns and the world
    it leaves. *)
Lemma handleToken_outcome (request : Request) (env : Env) (w w' : World)
    (p : Promise Response) :
  handleToken request env w = (Normal p, w') →
  (getSessionId request = None
   ∧ w' = w
   ∧ ∃ code b, p = corsResponse request env code b ∅)
  ∨ (∃ sid, getSessionId request = Some sid
      ∧ TOKENS w !! sid = None
      ∧ w' = log (KVGet sid) w
      ∧ ∃ code b, p = corsResponse request env code b ∅)
  ∨ (∃ sid entry, getSessionId request = Some sid
      ∧ TOKENS w !! sid = Some entry
      ∧ ((w' = log (TokenEndpoint (refresh_call env entry)) (log (KVGet sid) w)
          ∧ ((∃ e, p = Thrown e) ∨ ∃ code b, p = corsResponse request env code b ∅))
         ∨ (w' = log (ConsoleError "Token refresh error:")
                   (log (TokenEndpoint (refresh_call env entry)) (log (KVGet sid) w))
            ∧ ∃ code b, p = corsResponse request env code b ∅)
         ∨ (w' = log (KVDelete sid) (set_TOKENS (delete sid)
                   (log (ConsoleError "Token refresh error:")
                      (log (TokenEndpoint (refresh_call env entry)) (log (KVGet sid) w))))
            ∧ ∃ code b, p = corsResponse request env code b
                               {[ "Set-Cookie" := buildSessionCookie "" 0 ]}))).
Proof.
  unfold handleToken, refresh_call.
  destruct (getSessionId request) as [sid|] eqn:Hsid.
  - rewrite (getSessionId_truthy _ _ Hsid). cbn [negb Js.narrowed].
    unfold async, bind, TOKENS_get, fetch_token, console_error, TOKENS_delete, lift.
    destruct (TOKENS w !! sid) as [entry|] eqn:Hentry; cbn [fmap option_fmap option_map].
    + intros Hrun. right; right. exists sid, entry. split; [done|]. split; [done|].
      destruct (token_endpoint _) as [tokens|e].
      * destruct (Js.truthy (tokens_error tokens)).
        -- destruct (bool_decide (tokens_error tokens = Some "invalid_grant"));
             injection Hrun as <- <-; [right; right|right; left]; eauto.
        -- injection Hrun as <- <-. left. eauto.
      * injection Hrun as <- <-. left. eauto.
    + intros [= <- <-]. right; left. exists sid. eauto 10.
  - intros [= <- <-]. left. eauto.
Qed.

(** [handleStatus], branch by branch. *)
Lemma handleStatus_outcome (request : Request) (env : Env) (w w' : World)
    (p : Promise Response) :
  handleStatus request env w = (Normal p, w') →
  (∃ code b, p = corsResponse request env code b ∅)
  ∧ ((getSessionId request = None ∧ w' = w)
     ∨ ∃ sid, getSessionId request = Some sid ∧ w' = log (KVGet sid) w).
Proof.
  unfold handleStatus. destruct (getSessionId request) as [sid|] eqn:Hsid.
  - rewrite (getSessionId_truthy _ _ Hsid). cbn [negb Js.narrowed].
    unfold async, bind, TOKENS_get, lift.
    destruct (kv_value <$> TOKENS w !! sid); intros [= <- <-]; eauto 10.
  - intros [= <- <-]. eauto 10.
Qed.

(** [handleCallback], branch by branch. *)
Lemma handleCallback_outcome (request : Request) (env : Env) (u : URL)
    (w w' : World) (p : Promise Response) :
  handleCallback request env u w = (Normal p, w') →
  (w' = w ∧ ∃ target, p = Normal (Response_redirect (redirectOrigin env u +:+ target) 302))
  ∨ ∃ code,
      searchParams_get (searchParams u) "code" = Some code
      ∧ code ≠ ""
      ∧ Js.truthy (searchParams_get (searchParams u) "error") = false
      ∧ ((w' = log (TokenEndpoint (code_call env u code)) w ∧ ∃ e, p = Thrown e)
         ∨ (∃ label, w' = log (ConsoleError label) (log (TokenEndpoint (code_call env u code)) w)
            ∧ ∃ target, p = Normal (Response_redirect (redirectOrigin env u +:+ target) 302))
         ∨ ∃ sessionId refresh,
             sessionId ≠ ""
             ∧ (";"%char ∉ list_ascii_of_string sessionId)
             ∧ refresh ≠ ""
             ∧ w' = log (KVPut sessionId (session_entry refresh (now w)))
                      (set_TOKENS (insert sessionId (session_entry refresh (now w)))
                         (next_draw (log (TokenEndpoint (code_call env u code)) w)))
             ∧ p = Normal {|
                     status := 302;
                     body := NoBody;
                     headers := list_to_map [
                       ("Location", redirectOrigin env u +:+ "?auth=success");
                       ("Set-Cookie", buildSessionCookie sessionId SESSION_MAX_AGE)]
                   |}).
Proof.
  unfold handleCallback, code_call.
  destruct (Js.truthy (searchParams_get (searchParams u) "error")) eqn:Herror.
  { intros [= <- <-]. left. eauto. }
  destruct (Js.truthy (searchParams_get (searchParams u) "code")) eqn:Hcode; cbn [negb];
    [|intros [= <- <-]; left; eauto].
  apply truthy_narrowed in Hcode as [Hcode Hne].
  set (code := Js.narrowed (searchParams_get (searchParams u) "code")) in *.
  intros Hrun. right. exists code. split; [done|]. split; [done|]. split; [done|].
  revert Hrun. unfold async, bind, fetch_token, console_error, ret.
  destruct (token_endpoint _) as [tokens|e]; [|intros [= <- <-]; left; eauto].
  destruct (Js.truthy (tokens_error tokens)); [intros [= <- <-]; right; left; eauto|].
  destruct (Js.truthy (tokens_refresh_token tokens)) eqn:Hrt; cbn [negb];
    [|intros [= <- <-]; right; left; eauto].
  apply truthy_narrowed in Hrt as [_ Hrt].
  unfold crypto_randomUUID, Date_now, TOKENS_put.
  intros [= <- <-]. right; right.
  eexists _, (Js.narrowed (tokens_refresh_token tokens)).
  split; [|split; [|split; [|split; reflexivity]]]; [discriminate| |done].
  cbn [Js.hex_bytes Js.hex_byte list_ascii_of_string].
  rewrite !elem_of_cons, elem_of_nil. intros Hin.
  repeat (destruct Hin as [Hin|Hin];
          [first [discriminate Hin | by apply eq_sym, hex_digit_not_semicolon in Hin]|]).
  done.
Qed.

End Outcomes.

(** ** The trace of a request *)

Lemma added_nil (w : World) : added_events w w [].
Proof. unfold added_events. by rewrite app_nil_r. Qed.

Lemma added_log (w w' : World) (evs : list Event) (ev : Event) :
  added_events w w' evs → added_events w (log ev w') (evs ++ [ev]).
Proof. unfold added_events. cbn [trace log]. intros ->. by rewrite app_assoc. Qed.

Lemma added_set_TOKENS (w w' : World) (evs : list Event)
    (f : gmap string KVEntry → gmap string KVEntry) :
  added_events w w' evs → added_events w (set_TOKENS f w') evs.
Proof. done. Qed.

Lemma added_next_draw (w w' : World) (evs : list Event) :
  added_events w w' evs → added_events w (next_draw w') evs.
Proof. done. Qed.

Create HintDb added_events.

#[local] Hint Resolve added_nil added_log added_set_TOKENS added_next_draw : added_events.

Section Calls.

Context `{Platform}.

Lemma route_cases (request : Request) :
  method request = "OPTIONS"
  ∨ (method request ≠ "OPTIONS"
     ∧ (pathname (url request) = "/auth/login"
        ∨ pathname (url request) = "/auth/callback"
        ∨ pathname (url request) = "/auth/token"
        ∨ pathname (url request) = "/auth/logout"
        ∨ pathname (url request) = "/auth/status"
        ∨ (pathname (url request) ≠ "/auth/login"
           ∧ pathname (url request) ≠ "/auth/callback"
           ∧ pathname (url request) ≠ "/auth/token"
           ∧ pathname (url request) ≠ "/auth/logout"
           ∧ pathname (url request) ≠ "/auth/status"))).
Proof.
  destruct (decide (method request = "OPTIONS")); [by left|right]. split; [done|].
  destruct (decide (pathname (url request) = "/auth/login")); [tauto|].
  destruct (decide (pathname (url request) = "/auth/callback")); [tauto|].
  destruct (decide (pathname (url request) = "/auth/token")); [tauto|].
  destruct (decide (pathname (url request) = "/auth/logout")); [tauto|].
  destruct (decide (pathname (url request) = "/auth/status")); tauto.
Qed.

(** The worker talks to the token endpoint at most once per request, and
    only on two routes.  On [/auth/token] it does so only when the store
    holds a record under the request's session identifier, and what it
    sends is that record's refresh token with the client's credentials; on
    [/auth/callback] only when the request has a [code] and no [error],
    and what it sends is that code with the worker's own callback address.
    Login, logout, status, the preflight and unknown paths never call
    it. *)
Theorem token_endpoint_calls (request : Request) (env : Env) (w w' : World)
    (p : Promise Response) :
  fetch request env w = (Normal p, w') →
  ∃ evs,
    added_events w w' evs
    ∧ (filter (λ ev, is_upstream_call ev = true) evs = []
       ∨ (method request ≠ "OPTIONS"
          ∧ pathname (url request) = "/auth/token"
          ∧ ∃ sid entry,
              getSessionId request = Some sid
              ∧ TOKENS w !! sid = Some entry
              ∧ filter (λ ev, is_upstream_call ev = true) evs
                = [TokenEndpoint (refresh_call env entry)])
       ∨ (method request ≠ "OPTIONS"
          ∧ pathname (url request) = "/auth/callback"
          ∧ ∃ code,
              searchParams_get (searchParams (url request)) "code" = Some code
              ∧ code ≠ ""
              ∧ Js.truthy (searchParams_get (searchParams (url request)) "error") = false
              ∧ filter (λ ev, is_upstream_call ev = true) evs
                = [TokenEndpoint (code_call env (url request) code)])).
Proof.
  intros Hrun.
  destruct (route_cases request) as [Hm|[Hm [Hp|[Hp|[Hp|[Hp|[Hp|Hp]]]]]]].
  - rewrite (fetch_preflight _ _ _ Hm) in Hrun. injection Hrun as _ <-.
    exists []. split; [apply added_nil|by left].
  - rewrite (fetch_login _ _ _ Hm Hp) in Hrun.
    destruct (handleLogin request env (url request)); injection Hrun as _ <-.
    + exists []. split; [apply added_nil|by left].
    + eexists. split; [eauto with added_events|by left].
  - rewrite (fetch_callback _ _ _ Hm Hp) in Hrun.
    apply handleCallback_outcome in Hrun
      as [[-> _]|(code & Hcode & Hne & Herror & Hcases)].
    { exists []. split; [apply added_nil|by left]. }
    destruct Hcases as [[-> _]|[(label & -> & _)|(sid & refresh & _ & _ & _ & -> & _)]];
      (eexists; split; [eauto 10 with added_events|]);
      right; right; (do 2 (split; [done|])); exists code; by repeat split.
  - rewrite (fetch_token_route _ _ _ Hm Hp) in Hrun.
    apply handleToken_outcome in Hrun
      as [(_ & -> & _)|[(sid & _ & _ & -> & _)|(sid & entry & Hsid & Hentry & Hcases)]].
    { exists []. split; [apply added_nil|by left]. }
    { eexists. split; [eauto with added_events|by left]. }
    destruct Hcases as [[-> _]|[[-> _]|[-> _]]];
      (eexists; split; [eauto 10 with added_events|]);
      right; left; (do 2 (split; [done|])); exists sid, entry; by repeat split.
  - rewrite (fetch_logout _ _ _ Hm Hp), handleLogout_eq in Hrun.
    injection Hrun as _ <-. destruct (getSessionId request).
    + eexists. split; [eauto with added_events|by left].
    + exists []. split; [apply added_nil|by left].
  - rewrite (fetch_status _ _ _ Hm Hp) in Hrun.
    apply handleStatus_outcome in Hrun as [_ [[_ ->]|(sid & _ & ->)]].
    + exists []. split; [apply added_nil|by left].
    + eexists. split; [eauto with added_events|by left].
  - destruct Hp as (? & ? & ? & ? & ?).
    rewrite fetch_not_found in Hrun by done. injection Hrun as _ <-.
    exists []. split; [apply added_nil|by left].
Qed.

End Calls.

(** ** The store and the cookie across all routes *)

Section Frame.

Context `{Platform}.

(** A request changes at most the record that its own cookie names, and
    that only by deleting it on [/auth/token] or [/auth/logout]; the one
    other change is the record that a successful [/auth/callback] writes,
    with the thirty-day TTL and the time of the call.  Every other key of
    the store holds after the request what it held before. *)
Theorem store_frame (request : Request) (env : Env) (w w' : World)
    (p : Promise Response) (k : string) :
  fetch request env w = (Normal p, w') →
  TOKENS w' !! k = TOKENS w !! k
  ∨ (method request ≠ "OPTIONS"
     ∧ (pathname (url request) = "/auth/token" ∨ pathname (url request) = "/auth/logout")
     ∧ getSessionId request = Some k
     ∧ TOKENS w' !! k = None)
  ∨ (method request ≠ "OPTIONS"
     ∧ pathname (url request) = "/auth/callback"
     ∧ ∃ refresh, refresh ≠ "" ∧ TOKENS w' !! k = Some (session_entry refresh (now w))).
Proof.
  intros Hrun.
  destruct (route_cases request) as [Hm|[Hm [Hp|[Hp|[Hp|[Hp|[Hp|Hp]]]]]]].
  - rewrite (fetch_preflight _ _ _ Hm) in Hrun. injection Hrun as _ <-. by left.
  - rewrite (fetch_login _ _ _ Hm Hp) in Hrun.
    destruct (handleLogin request env (url request)); injection Hrun as _ <-; by left.
  - rewrite (fetch_callback _ _ _ Hm Hp) in Hrun.
    apply handleCallback_outcome in Hrun
      as [[-> _]|(code & _ & _ & _ & Hcases)]; [by left|].
    destruct Hcases as [[-> _]|[(label & -> & _)|(sid & refresh & _ & _ & Hne & -> & _)]];
      [by left..|].
    cbn [TOKENS log set_TOKENS next_draw].
    destruct (decide (k = sid)) as [->|Hk].
    + right; right. do 2 (split; [done|]). exists refresh.
      split; [done|]. apply lookup_insert_eq.
    + left. by apply lookup_insert_ne.
  - rewrite (fetch_token_route _ _ _ Hm Hp) in Hrun.
    apply handleToken_outcome in Hrun
      as [(_ & -> & _)|[(sid & _ & _ & -> & _)|(sid & entry & Hsid & _ & Hcases)]];
      [by left..|].
    destruct Hcases as [[-> _]|[[-> _]|[-> _]]]; [by left..|].
    cbn [TOKENS log set_TOKENS].
    destruct (decide (k = sid)) as [->|Hk].
    + right; left. split; [done|]. split; [by left|]. split; [done|].
      apply lookup_delete_eq.
    + left. by apply lookup_delete_ne.
  - rewrite (fetch_logout _ _ _ Hm Hp), handleLogout_eq in Hrun.
    injection Hrun as _ <-. destruct (getSessionId request) as [sid|] eqn:Hsid; [|by left].
    cbn [TOKENS log set_TOKENS].
    destruct (decide (k = sid)) as [->|Hk].
    + right; left. split; [done|]. split; [by right|]. split; [done|].
      apply lookup_delete_eq.
    + left. by apply lookup_delete_ne.
  - rewrite (fetch_status _ _ _ Hm Hp) in Hrun.
    apply handleStatus_outcome in Hrun as [_ [[_ ->]|(sid & _ & ->)]]; by left.
  - destruct Hp as (? & ? & ? & ? & ?).
    rewrite fetch_not_found in Hrun by done. injection Hrun as _ <-. by left.
Qed.

(** A response sets the session cookie in two situations only.  Either it
    clears it, on [/auth/token] and [/auth/logout], and then the store
    holds no record under the request's session identifier; or it is the
    redirect of a successful [/auth/callback], and then the cookie carries
    a non-empty identifier under which the store holds the record just
    written.  The worker hands out no identifier without its record. *)
Theorem set_cookie_sources (request : Request) (env : Env) (w w' : World)
    (r : Response) (c : string) :
  fetch request env w = (Normal (Normal r), w') →
  headers r !! "Set-Cookie" = Some c →
  (c = buildSessionCookie "" 0
   ∧ method request ≠ "OPTIONS"
   ∧ (pathname (url request) = "/auth/token" ∨ pathname (url request) = "/auth/logout")
   ∧ ∀ sid, getSessionId request = Some sid → TOKENS w' !! sid = None)
  ∨ (method request ≠ "OPTIONS"
     ∧ pathname (url request) = "/auth/callback"
     ∧ ∃ sessionId refresh,
         sessionId ≠ ""
         ∧ (";"%char ∉ list_ascii_of_string sessionId)
         ∧ refresh ≠ ""
         ∧ c = buildSessionCookie sessionId SESSION_MAX_AGE
         ∧ TOKENS w' !! sessionId = Some (session_entry refresh (now w))).
Proof.
  intros Hrun Hc.
  destruct (route_cases request) as [Hm|[Hm [Hp|[Hp|[Hp|[Hp|[Hp|Hp]]]]]]].
  - rewrite (fetch_preflight _ _ _ Hm) in Hrun. injection Hrun as Hr _.
    apply corsResponse_without_cookie in Hr. congruence.
  - rewrite (fetch_login _ _ _ Hm Hp) in Hrun.
    destruct (handleLogin request env (url request)) as [r0|exn] eqn:Hlogin;
      injection Hrun as Hr _.
    + subst r0. apply handleLogin_Normal in Hlogin as [o ->]. done.
    + apply corsResponse_without_cookie in Hr. congruence.
  - rewrite (fetch_callback _ _ _ Hm Hp) in Hrun.
    apply handleCallback_outcome in Hrun
      as [[_ [target Hr]]|(code & _ & _ & _ & Hcases)].
    { injection Hr as ->. done. }
    destruct Hcases
      as [[_ [e Hr]]|[(label & _ & target & Hr)|(sid & refresh & ? & ? & ? & -> & Hr)]];
      [done|by injection Hr as ->|].
    injection Hr as ->. right. do 2 (split; [done|]). exists sid, refresh.
    repeat split; try done.
    + cbn -[buildSessionCookie] in Hc. rewrite lookup_insert_ne in Hc by done.
      rewrite lookup_insert_eq in Hc. congruence.
    + cbn. apply lookup_insert_eq.
  - rewrite (fetch_token_route _ _ _ Hm Hp) in Hrun.
    apply handleToken_outcome in Hrun
      as [(_ & _ & code & b & Hr)|[(sid & _ & _ & _ & code & b & Hr)
          |(sid & entry & Hsid & _ & Hcases)]].
    { symmetry in Hr. apply corsResponse_without_cookie in Hr. congruence. }
    { symmetry in Hr. apply corsResponse_without_cookie in Hr. congruence. }
    destruct Hcases
      as [[_ [[e Hr]|(code & b & Hr)]]|[[_ (code & b & Hr)]|[-> (code & b & Hr)]]];
      [done|symmetry in Hr; apply corsResponse_without_cookie in Hr; congruence..|].
    symmetry in Hr. apply corsResponse_with_cookie in Hr.
    left. split; [congruence|]. split; [done|]. split; [by left|].
    intros sid' Hsid'. cbn. rewrite Hsid in Hsid'. injection Hsid' as <-.
    apply lookup_delete_eq.
  - rewrite (fetch_logout _ _ _ Hm Hp), handleLogout_eq in Hrun.
    injection Hrun as Hr <-. apply corsResponse_with_cookie in Hr.
    left. split; [congruence|]. split; [done|]. split; [by right|].
    intros sid ->. cbn. apply lookup_delete_eq.
  - rewrite (fetch_status _ _ _ Hm Hp) in Hrun.
    apply handleStatus_outcome in Hrun as [(code & b & Hr) _].
    symmetry in Hr. apply corsResponse_without_cookie in Hr. congruence.
  - destruct Hp as (? & ? & ? & ? & ?).
    rewrite fetch_not_found in Hrun by done. injection Hrun as <- _. done.
Qed.

End Frame.

(** ** The success path of [/auth/token] *)

Section TokenSuccess.

Context `{Platform}.

Lemma handleToken_success (request : Request) (env : Env) (w : World)
    (sid : string) (entry : KVEntry) (tokens : GoogleTokenResponse) :
  getSessionId request = Some sid →
  TOKENS w !! sid = Some entry →
  token_endpoint (refresh_call env entry) = Normal tokens →
  Js.truthy (tokens_error tokens) = false →
  handleToken request env w =
  (Normal (corsResponse request env 200 (Some [
     ("access_token", JString <$> access_token tokens);
     ("expires_in", JNumber <$> expires_in tokens)]) ∅),
   log (TokenEndpoint (refresh_call env entry)) (log (KVGet sid) w)).
Proof.
  intros Hsid Hentry Hup Herr. unfold handleToken. rewrite Hsid.
  rewrite (getSessionId_truthy _ _ Hsid). cbn [negb Js.narrowed].
  unfold async, bind, TOKENS_get, fetch_token, lift.
  rewrite Hentry. cbn [fmap option_fmap option_map].
  fold (refresh_call env entry). by rewrite Hup, Herr.
Qed.

(** With a record in the store and an answer of the provider that carries
    no error, [/auth/token] returns [200] with the access token and the
    expiry that the provider declared.  It asks the provider once, with
    the stored refresh token; it sets no cookie and leaves the store as it
    was: the access token is not kept. *)
Theorem token_returns_access_token (request : Request) (env : Env) (w : World)
    (o sid at_ : string) (entry : KVEntry) (tokens : GoogleTokenResponse) (n : Z) :
  method request ≠ "OPTIONS" →
  pathname (url request) = "/auth/token" →
  getRequestOrigin request env = Normal o →
  getSessionId request = Some sid →
  TOKENS w !! sid = Some entry →
  token_endpoint (refresh_call env entry) = Normal tokens →
  Js.truthy (tokens_error tokens) = false →
  access_token tokens = Some at_ →
  expires_in tokens = Some n →
  ∃ r w',
    fetch request env w = (Normal (Normal r), w')
    ∧ status r = 200
    ∧ body r = Json [("access_token", JString at_); ("expires_in", JNumber n)]
    ∧ carries_cors request env r
    ∧ headers r !! "Set-Cookie" = None
    ∧ TOKENS w' = TOKENS w
    ∧ added_events w w' [KVGet sid; TokenEndpoint (refresh_call env entry)].
Proof.
  intros Hm Hp Ho Hsid Hentry Hup Herr Hat Hn.
  rewrite (fetch_token_route _ _ _ Hm Hp).
  rewrite (handleToken_success _ _ _ _ _ _ Hsid Hentry Hup Herr).
  destruct (corsResponse_returns request env 200 (Some [
    ("access_token", JString <$> access_token tokens);
    ("expires_in", JNumber <$> expires_in tokens)]) ∅ o Ho) as [r Hr].
  eexists r, _. rewrite Hr. split; [done|].
  pose proof (corsResponse_carries_cors _ _ _ _ _ _ only_cookie_empty Hr).
  pose proof (corsResponse_without_cookie _ _ _ _ _ Hr).
  apply corsResponse_Normal in Hr as (? & ? & ? & Hb & ?).
  rewrite Hat, Hn in Hb. repeat split; try done.
  unfold added_events. cbn. by rewrite <- app_assoc.
Qed.

End TokenSuccess.

(** ** Where the worker redirects to *)

Section RedirectTargets.

Context `{Platform}.




End RedirectTargets.

(** ** The preflight and the method *)

Section Methods.

Context `{Platform}.

(** An [OPTIONS] request is answered before any routing: whatever its
    path and its cookie, the answer is [204] without body, with the CORS
    headers and without [Set-Cookie], and nothing is read, written or
    called.  A preflight for [/auth/logout] does not log out. *)
Theorem preflight_is_inert (request : Request) (env : Env) (w : World) (o : string) :
  method request = "OPTIONS" →
  getRequestOrigin request env = Normal o →
  ∃ r,
    fetch request env w = (Normal (Normal r), w)
    ∧ status r = 204
    ∧ body r = NoBody
    ∧ carries_cors request env r
    ∧ headers r !! "Set-Cookie" = None.
Proof.
  intros Hm Ho. rewrite (fetch_preflight _ _ _ Hm).
  destruct (corsResponse_returns request env 204 None ∅ o Ho) as [r Hr].
  exists r. rewrite Hr. split; [done|].
  pose proof (corsResponse_carries_cors _ _ _ _ _ _ only_cookie_empty Hr).
  pose proof (corsResponse_without_cookie _ _ _ _ _ Hr).
  apply corsResponse_Normal in Hr as (? & ? & ? & ? & ?). done.
Qed.

(** Apart from [OPTIONS], the method plays no part: the route is chosen
    by the path alone and no handler looks at the method, so a request
    has the same outcome and the same effects under any other method.  A
    [GET] of [/auth/logout] logs out as a [POST] does. *)
Theorem routing_ignores_method (request : Request) (env : Env) (w : World) (m : string) :
  method request ≠ "OPTIONS" →
  m ≠ "OPTIONS" →
  fetch (with_method m request) env w = fetch request env w.
Proof.
  intros Hrequest Hm. unfold fetch. cbn [method url with_method].
  destruct (String.eqb_spec m "OPTIONS"); [done|].
  destruct (String.eqb_spec (method request) "OPTIONS"); [done|].
  reflexivity.
Qed.

End Methods.

(** ** The life of a session *)

Section Lifecycle.

Context `{Platform}.

Lemma handleStatus_found (request : Request) (env : Env) (w : World)
    (sid : string) (entry : KVEntry) :
  getSessionId request = Some sid →
  TOKENS w !! sid = Some entry →
  handleStatus request env w =
  (Normal (corsResponse request env 200 (Some [
     ("authenticated", Some (JBool true));
     ("sessionCreated", Some (JNumber (created (kv_value entry))))]) ∅),
   log (KVGet sid) w).
Proof.
  intros Hsid Hentry. unfold handleStatus. rewrite Hsid.
  rewrite (getSessionId_truthy _ _ Hsid). cbn [negb Js.narrowed].
  unfold async, bind, TOKENS_get, lift. by rewrite Hentry.
Qed.

Lemma handleStatus_absent (request : Request) (env : Env) (w : World) (sid : string) :
  getSessionId request = Some sid →
  TOKENS w !! sid = None →
  handleStatus request env w =
  (Normal (corsResponse request env 200 (Some [
     ("authenticated", Some (JBool false))]) ∅),
   log (KVGet sid) w).
Proof.
  intros Hsid Hentry. unfold handleStatus. rewrite Hsid.
  rewrite (getSessionId_truthy _ _ Hsid). cbn [negb Js.narrowed].
  unfold async, bind, TOKENS_get, lift. by rewrite Hentry.
Qed.





(** The refresh token does not reach the browser through
    [/auth/status]: the outcome depends on the store only through the
    presence and the creation time of the record under the request's
    session identifier.  Two stores that agree on these give the same
    outcome, whatever refresh tokens they hold. *)
Theorem status_hides_refresh_token (request : Request) (env : Env) (w1 w2 : World) :
  method request ≠ "OPTIONS" →
  pathname (url request) = "/auth/status" →
  (∀ sid, getSessionId request = Some sid →
     (created ∘ kv_value) <$> TOKENS w1 !! sid = (created ∘ kv_value) <$> TOKENS w2 !! sid) →
  (fetch request env w1).1 = (fetch request env w2).1.
Proof.
  intros Hm Hp Hsame. rewrite !(fetch_status _ _ _ Hm Hp).
  destruct (getSessionId request) as [sid|] eqn:Hsid.
  - specialize (Hsame sid eq_refl).
    destruct (TOKENS w1 !! sid) as [e1|] eqn:H1, (TOKENS w2 !! sid) as [e2|] eqn:H2;
      try done.
    + rewrite (handleStatus_found _ _ _ _ _ Hsid H1), (handleStatus_found _ _ _ _ _ Hsid H2).
      cbn in Hsame. injection Hsame as ->. done.
    + by rewrite (handleStatus_absent _ _ _ _ Hsid H1), (handleStatus_absent _ _ _ _ Hsid H2).
  - unfold handleStatus. by rewrite Hsid.
Qed.

(** Nor does it reach the browser through [/auth/token]: the outcome
    depends on the stored refresh token only through what the provider
    answers to it.  Two records to which the provider gives the same
    answer give the same outcome. *)
Theorem token_hides_refresh_token (request : Request) (env : Env) (w1 w2 : World)
    (sid : string) (e1 e2 : KVEntry) :
  method request ≠ "OPTIONS" →
  pathname (url request) = "/auth/token" →
  getSessionId request = Some sid →
  TOKENS w1 !! sid = Some e1 →
  TOKENS w2 !! sid = Some e2 →
  token_endpoint (refresh_call env e1) = token_endpoint (refresh_call env e2) →
  (fetch request env w1).1 = (fetch request env w2).1.
Proof.
  intros Hm Hp Hsid H1 H2 Hsame. rewrite !(fetch_token_route _ _ _ Hm Hp).
  unfold handleToken. rewrite Hsid.
  rewrite (getSessionId_truthy _ _ Hsid). cbn [negb Js.narrowed].
  unfold async, bind, TOKENS_get, fetch_token, console_error, TOKENS_delete, lift.
  rewrite H1, H2. cbn [fmap option_fmap option_map].
  fold (refresh_call env e1) (refresh_call env e2). rewrite Hsame.
  destruct (token_endpoint (refresh_call env e2)) as [tokens|e]; [|done].
  destruct (Js.truthy (tokens_error tokens)); [|done].
  by destruct (bool_decide (tokens_error tokens = Some "invalid_grant")).
Qed.

End Lifecycle.

(** * The properties on the sample deployment *)

Section Examples.

#[local] Existing Instance Sample.platform.

Lemma getSessionId_takes_foreign_cookie_witness :
  Spec.cookie_names "xsession=v" = ["xsession"]
  ∧ ("session" ∉ Spec.cookie_names "xsession=v")
  ∧ getSessionId (Sample.request "GET" "/auth/token" [] [("Cookie", "xsession=v")]) = Some "v".
Proof.
  apply (getSessionId_takes_foreign_cookie
           (Sample.request "GET" "/auth/token" [] [("Cookie", "xsession=v")]) "v").
  - reflexivity.
  - discriminate.
  - simpl. rewrite list_elem_of_singleton. discriminate.
Defined.

Lemma token_codes_when_origin_resolves_witness :
  ∃ r w',
    fetch (Sample.request "GET" "/auth/token" [] [("Cookie", "session=sid-revoked")])
      Sample.env Sample.world = (Normal (Normal r), w')
    ∧ status r = 401
    ∧ body r = Json [("error", JString "Session invalidated");
                     ("code", JString "REFRESH_FAILED")]
    ∧ carries_cors (Sample.request "GET" "/auth/token" [] [("Cookie", "session=sid-revoked")])
        Sample.env r
    ∧ headers r !! "Set-Cookie" = Some (buildSessionCookie "" 0)
    ∧ TOKENS w' = delete "sid-revoked" (TOKENS Sample.world)
    ∧ TOKENS w' !! "sid-revoked" = None.
Proof.
  destruct (@token_codes_when_origin_resolves Sample.platform
              (Sample.request "GET" "/auth/token" [] [("Cookie", "session=sid-revoked")])
              Sample.env Sample.world "https://app.example")
    as (_ & _ & Hfailed & _).
  - discriminate.
  - reflexivity.
  - vm_compute. reflexivity.
  - apply (Hfailed "sid-revoked" (Sample.record "rt-revoked")
             (Sample.error_fields "invalid_grant")).
    + vm_compute. reflexivity.
    + vm_compute. reflexivity.
    + vm_compute. reflexivity.
    + reflexivity.
Defined.

Lemma token_rejected_on_unparsable_referer_witness :
  fetch (Sample.request "GET" "/auth/token" [] [("Referer", "not a url")])
    Sample.env Sample.world
  = (Normal (Thrown (TypeError "Invalid URL")), Sample.world).
Proof.
  apply (@token_rejected_on_unparsable_referer Sample.platform
           (Sample.request "GET" "/auth/token" [] [("Referer", "not a url")])
           Sample.env Sample.world "not a url").
  - discriminate.
  - reflexivity.
  - vm_compute. reflexivity.
  - vm_compute. reflexivity.
  - vm_compute. reflexivity.
  - discriminate.
  - reflexivity.
Defined.




(** C5, as the claim words it, fails: the redirect that answers
    [/auth/login] is a response of the handler and carries no CORS header,
    although the request comes from an allowed origin. *)
Lemma login_redirect_carries_no_cors :
  ∃ r w',
    fetch (Sample.request "GET" "/auth/login" [] [("Origin", "https://app.example")])
      Sample.env Sample.world = (Normal (Normal r), w')
    ∧ status r = 302
    ∧ headers r !! "Access-Control-Allow-Origin" = None
    ∧ headers r !! "Access-Control-Allow-Credentials" = None.
Proof.
  eexists _, _. split; [vm_compute; reflexivity|].
  repeat split; vm_compute; reflexivity.
Qed.

Lemma cors_headers_by_route_witness :
  ∃ r w',
    let request := Sample.request "GET" "/auth/token" []
                     [("Origin", "https://beta.example"); ("Cookie", "session=sid-busy")] in
    fetch request Sample.env Sample.world = (Normal (Normal r), w')
    ∧ status r = 500
    ∧ carries_cors request Sample.env r
    ∧ headers r !! "Access-Control-Allow-Credentials" = Some "true".
Proof.
  eexists _, _. cbv zeta. split; [vm_compute; reflexivity|].
  split; [reflexivity|].
  eapply (@cors_headers_by_route Sample.platform
            (Sample.request "GET" "/auth/token" []
               [("Origin", "https://beta.example"); ("Cookie", "session=sid-busy")])
            Sample.env Sample.world).
  - vm_compute. reflexivity.
  - right; left. reflexivity.
Defined.

(** C6, as the claim words it, fails: the request names an allowed origin
    in its [origin] query parameter and carries neither [Origin] nor
    [Referer], so the three-tier resolution gives that origin; the CORS
    header of the response is the first allow-list entry, because
    [corsResponse] does not look at the query. *)
Lemma cors_origin_ignores_query_parameter :
  let request := Sample.request "GET" "/auth/status"
                   [("origin", "https://beta.example")] [] in
  Spec.resolve (getAllowedOrigins Sample.env)
    [Spec.present (searchParams_get (searchParams (url request)) "origin");
     Spec.present (headers_get request "Origin");
     referer_candidate request] = "https://beta.example"
  ∧ ∃ r w',
      fetch request Sample.env Sample.world = (Normal (Normal r), w')
      ∧ headers r !! "Access-Control-Allow-Origin" = Some "https://app.example".
Proof.
  cbv zeta. split; [vm_compute; reflexivity|].
  eexists _, _. split; vm_compute; reflexivity.
Qed.

Lemma status_is_read_only_witness :
  ∃ p w' evs,
    fetch (Sample.request "GET" "/auth/status" [] [("Cookie", "session=sid-live")])
      Sample.env Sample.world = (Normal p, w')
    ∧ TOKENS w' = TOKENS Sample.world
    ∧ trace w' = (trace Sample.world ++ evs)%list
    ∧ Forall (λ ev, is_upstream_call ev = false ∧ is_store_write ev = false) evs.
Proof.
  apply (@status_is_read_only Sample.platform
           (Sample.request "GET" "/auth/status" [] [("Cookie", "session=sid-live")])
           Sample.env Sample.world).
  - discriminate.
  - reflexivity.
Defined.

Lemma status_answers_when_origin_resolves_witness :
  ∃ r w',
    let request := Sample.request "GET" "/auth/status" []
                     [("Cookie", "session=sid-live")] in
    fetch request Sample.env Sample.world = (Normal (Normal r), w')
    ∧ status r = 200
    ∧ carries_cors request Sample.env r
    ∧ body r = Json [("authenticated", JBool true);
                     ("sessionCreated", JNumber 1700000000000)].
Proof.
  apply (@status_answers_when_origin_resolves Sample.platform
           (Sample.request "GET" "/auth/status" [] [("Cookie", "session=sid-live")])
           Sample.env Sample.world "https://app.example").
  - discriminate.
  - reflexivity.
  - vm_compute. reflexivity.
Defined.

Lemma status_rejected_on_unparsable_referer_witness :
  fetch (Sample.request "GET" "/auth/status" [] [("Referer", "not a url")])
    Sample.env Sample.world
  = (Normal (Thrown (TypeError "Invalid URL")), Sample.world).
Proof.
  apply (@status_rejected_on_unparsable_referer Sample.platform
           (Sample.request "GET" "/auth/status" [] [("Referer", "not a url")])
           Sample.env Sample.world "not a url").
  - discriminate.
  - reflexivity.
  - vm_compute. reflexivity.
  - vm_compute. reflexivity.
  - vm_compute. reflexivity.
  - discriminate.
  - reflexivity.
Defined.

Lemma logout_is_idempotent_witness :
  ∃ p w1 w2,
    let request := Sample.request "POST" "/auth/logout" []
                     [("Cookie", "session=sid-live")] in
    fetch request Sample.env Sample.world = (Normal p, w1)
    ∧ fetch request Sample.env w1 = (Normal p, w2)
    ∧ TOKENS w2 = TOKENS w1
    ∧ TOKENS w1 = delete "sid-live" (TOKENS Sample.world).
Proof.
  apply (@logout_is_idempotent Sample.platform
           (Sample.request "POST" "/auth/logout" [] [("Cookie", "session=sid-live")])
           Sample.env Sample.world).
  - discriminate.
  - reflexivity.
Defined.

Lemma logout_answers_when_origin_resolves_witness :
  ∃ r w',
    let request := Sample.request "POST" "/auth/logout" []
                     [("Origin", "https://app.example"); ("Cookie", "session=gone")] in
    fetch request Sample.env Sample.world = (Normal (Normal r), w')
    ∧ status r = 200
    ∧ body r = Json [("success", JBool true)]
    ∧ headers r !! "Set-Cookie" =
        Some "session=; HttpOnly; Secure; SameSite=None; Max-Age=0; Path=/"
    ∧ carries_cors request Sample.env r
    ∧ ∀ sid, getSessionId request = Some sid → TOKENS w' !! sid = None.
Proof.
  apply (@logout_answers_when_origin_resolves Sample.platform
           (Sample.request "POST" "/auth/logout" []
              [("Origin", "https://app.example"); ("Cookie", "session=gone")])
           Sample.env Sample.world "https://app.example").
  - discriminate.
  - reflexivity.
  - vm_compute. reflexivity.
Defined.

Lemma logout_rejected_on_unparsable_referer_witness :
  ∃ w',
    fetch (Sample.request "POST" "/auth/logout" []
             [("Referer", "not a url"); ("Cookie", "session=sid-live")])
      Sample.env Sample.world
    = (Normal (Thrown (TypeError "Invalid URL")), w').
Proof.
  apply (@logout_rejected_on_unparsable_referer Sample.platform
           (Sample.request "POST" "/auth/logout" []
              [("Referer", "not a url"); ("Cookie", "session=sid-live")])
           Sample.env Sample.world "not a url").
  - discriminate.
  - reflexivity.
  - vm_compute. reflexivity.
  - vm_compute. reflexivity.
  - discriminate.
  - reflexivity.
Defined.

Lemma login_exception_leaves_catch_all_witness :
  let request := Sample.request "GET" "/auth/login" [] [("Referer", "not a url")] in
  handleLogin request Sample.env (url request) = Thrown (TypeError "Invalid URL")
  ∧ fetch request Sample.env Sample.world =
    (Normal (Thrown (TypeError "Invalid URL")),
     log (ConsoleError "Worker error:") Sample.world).
Proof.
  apply (@login_exception_leaves_catch_all Sample.platform
           (Sample.request "GET" "/auth/login" [] [("Referer", "not a url")])
           Sample.env Sample.world "not a url").
  - discriminate.
  - reflexivity.
  - vm_compute. reflexivity.
  - vm_compute. reflexivity.
  - vm_compute. reflexivity.
  - discriminate.
  - reflexivity.
Defined.

Lemma catch_all_never_answers_witness :
  ∃ r w',
    fetch (Sample.request "GET" "/auth/token" [] [("Cookie", "session=sid-busy")])
      Sample.env Sample.world = (Normal (Normal r), w')
    ∧ status r = 500
    ∧ body r ≠ Json [("error", JString "Internal server error")].
Proof.
  eexists _, _. split; [vm_compute; reflexivity|]. split; [reflexivity|].
  eapply (@catch_all_never_answers Sample.platform
            (Sample.request "GET" "/auth/token" [] [("Cookie", "session=sid-busy")])
            Sample.env Sample.world).
  vm_compute. reflexivity.
Defined.

(** The provider cannot be reached: the rejection goes past the [catch]
    clause. *)
Example upstream_failure_on_sample :
  (fetch (Sample.request "GET" "/auth/token" [] [("Cookie", "session=sid-down")])
     Sample.env
     (set_TOKENS (insert "sid-down" (Sample.record "rt-down")) Sample.world)).1
  = Normal (Thrown (UpstreamFailure "fetch failed")).
Proof. vm_compute. reflexivity. Qed.

Lemma getSessionId_sound_witness :
  ∃ pre post,
    cookie_header (Sample.request "GET" "/auth/status" []
                     [("Cookie", "theme=dark; session=abc; lang=en")])
      = pre +:+ "session=" +:+ "abc" +:+ post
    ∧ "abc" ≠ ""
    ∧ (";"%char ∉ list_ascii_of_string "abc")
    ∧ (post = "" ∨ ∃ post', post = String ";" post').
Proof.
  apply (getSessionId_sound
           (Sample.request "GET" "/auth/status" []
              [("Cookie", "theme=dark; session=abc; lang=en")]) "abc").
  vm_compute. reflexivity.
Defined.

Lemma getSessionId_reads_leading_cookie_witness :
  getSessionId (Sample.request "GET" "/auth/status" []
                  [("Cookie", "session=abc; theme=dark")]) = Some "abc".
Proof.
  apply (getSessionId_reads_leading_cookie
           (Sample.request "GET" "/auth/status" [] [("Cookie", "session=abc; theme=dark")])
           "abc" "; theme=dark").
  - discriminate.
  - compute_done.
  - right. eexists. reflexivity.
  - vm_compute. reflexivity.
Defined.

Lemma session_cookie_round_trip_witness :
  getSessionId (Sample.request "GET" "/auth/status" []
                  [("Cookie", buildSessionCookie "abc" 3600)]) = Some "abc".
Proof.
  apply (session_cookie_round_trip
           (Sample.request "GET" "/auth/status" [] [("Cookie", buildSessionCookie "abc" 3600)])
           "abc" 3600).
  - discriminate.
  - compute_done.
  - vm_compute. reflexivity.
Defined.


Lemma token_returns_access_token_witness :
  ∃ r w',
    let request := Sample.request "GET" "/auth/token" []
                     [("Cookie", "session=sid-live")] in
    fetch request Sample.env Sample.world = (Normal (Normal r), w')
    ∧ status r = 200
    ∧ body r = Json [("access_token", JString "at-3"); ("expires_in", JNumber 3599)]
    ∧ carries_cors request Sample.env r
    ∧ headers r !! "Set-Cookie" = None
    ∧ TOKENS w' = TOKENS Sample.world
    ∧ added_events Sample.world w'
        [KVGet "sid-live";
         TokenEndpoint (RefreshTokenGrant "rt-1" "client-id" "client-secret")].
Proof.
  apply (@token_returns_access_token Sample.platform
           (Sample.request "GET" "/auth/token" [] [("Cookie", "session=sid-live")])
           Sample.env Sample.world "https://app.example" "sid-live" "at-3"
           (Sample.record "rt-1") (Sample.token_fields "at-3" None) 3599).
  - discriminate.
  - reflexivity.
  - vm_compute. reflexivity.
  - vm_compute. reflexivity.
  - vm_compute. reflexivity.
  - reflexivity.
  - reflexivity.
  - reflexivity.
  - reflexivity.
Defined.

Lemma token_endpoint_calls_witness :
  ∃ p w',
    let request := Sample.request "GET" "/auth/token" []
                     [("Cookie", "session=sid-busy")] in
    fetch request Sample.env Sample.world = (Normal p, w')
    ∧ ∃ evs,
        added_events Sample.world w' evs
        ∧ (filter (λ ev, is_upstream_call ev = true) evs = []
           ∨ (method request ≠ "OPTIONS"
              ∧ pathname (url request) = "/auth/token"
              ∧ ∃ sid entry,
                  getSessionId request = Some sid
                  ∧ TOKENS Sample.world !! sid = Some entry
                  ∧ filter (λ ev, is_upstream_call ev = true) evs
                    = [TokenEndpoint (refresh_call Sample.env entry)])
           ∨ (method request ≠ "OPTIONS"
              ∧ pathname (url request) = "/auth/callback"
              ∧ ∃ code,
                  searchParams_get (searchParams (url request)) "code" = Some code
                  ∧ code ≠ ""
                  ∧ Js.truthy (searchParams_get (searchParams (url request)) "error") = false
                  ∧ filter (λ ev, is_upstream_call ev = true) evs
                    = [TokenEndpoint (code_call Sample.env (url request) code)])).
Proof.
  eexists _, _. cbv zeta. split; [vm_compute; reflexivity|].
  eapply (@token_endpoint_calls Sample.platform
            (Sample.request "GET" "/auth/token" [] [("Cookie", "session=sid-busy")])
            Sample.env Sample.world).
  vm_compute. reflexivity.
Defined.

Lemma store_frame_witness :
  ∃ p w',
    let request := Sample.request "POST" "/auth/logout" []
                     [("Cookie", "session=sid-live")] in
    fetch request Sample.env Sample.world = (Normal p, w')
    ∧ (TOKENS w' !! "sid-busy" = TOKENS Sample.world !! "sid-busy"
       ∨ (method request ≠ "OPTIONS"
          ∧ (pathname (url request) = "/auth/token"
             ∨ pathname (url request) = "/auth/logout")
          ∧ getSessionId request = Some "sid-busy"
          ∧ TOKENS w' !! "sid-busy" = None)
       ∨ (method request ≠ "OPTIONS"
          ∧ pathname (url request) = "/auth/callback"
          ∧ ∃ refresh, refresh ≠ ""
              ∧ TOKENS w' !! "sid-busy"
                = Some (session_entry refresh (now Sample.world)))).
Proof.
  eexists _, _. cbv zeta. split; [vm_compute; reflexivity|].
  eapply (@store_frame Sample.platform
            (Sample.request "POST" "/auth/logout" [] [("Cookie", "session=sid-live")])
            Sample.env Sample.world).
  vm_compute. reflexivity.
Defined.

Lemma set_cookie_sources_witness :
  ∃ r w',
    let request := Sample.request "POST" "/auth/logout" []
                     [("Cookie", "session=sid-live")] in
    let c := "session=; HttpOnly; Secure; SameSite=None; Max-Age=0; Path=/" in
    fetch request Sample.env Sample.world = (Normal (Normal r), w')
    ∧ ((c = buildSessionCookie "" 0
        ∧ method request ≠ "OPTIONS"
        ∧ (pathname (url request) = "/auth/token"
           ∨ pathname (url request) = "/auth/logout")
        ∧ ∀ sid, getSessionId request = Some sid → TOKENS w' !! sid = None)
       ∨ (method request ≠ "OPTIONS"
          ∧ pathname (url request) = "/auth/callback"
          ∧ ∃ sessionId refresh,
              sessionId ≠ ""
              ∧ (";"%char ∉ list_ascii_of_string sessionId)
              ∧ refresh ≠ ""
              ∧ c = buildSessionCookie sessionId SESSION_MAX_AGE
              ∧ TOKENS w' !! sessionId
                = Some (session_entry refresh (now Sample.world)))).
Proof.
  eexists _, _. cbv zeta. split; [vm_compute; reflexivity|].
  eapply (@set_cookie_sources Sample.platform
            (Sample.request "POST" "/auth/logout" [] [("Cookie", "session=sid-live")])
            Sample.env Sample.world).
  - vm_compute. reflexivity.
  - vm_compute. reflexivity.
Defined.


Lemma preflight_is_inert_witness :
  ∃ r,
    let request := Sample.request "OPTIONS" "/auth/logout" []
                     [("Origin", "https://beta.example"); ("Cookie", "session=sid-live")] in
    fetch request Sample.env Sample.world = (Normal (Normal r), Sample.world)
    ∧ status r = 204
    ∧ body r = NoBody
    ∧ carries_cors request Sample.env r
    ∧ headers r !! "Set-Cookie" = None.
Proof.
  apply (@preflight_is_inert Sample.platform
           (Sample.request "OPTIONS" "/auth/logout" []
              [("Origin", "https://beta.example"); ("Cookie", "session=sid-live")])
           Sample.env Sample.world "https://beta.example").
  - reflexivity.
  - vm_compute. reflexivity.
Defined.

Lemma routing_ignores_method_witness :
  let request := Sample.request "POST" "/auth/logout" []
                   [("Cookie", "session=sid-live")] in
  fetch (with_method "GET" request) Sample.env Sample.world
  = fetch request Sample.env Sample.world.
Proof.
  apply (@routing_ignores_method Sample.platform
           (Sample.request "POST" "/auth/logout" [] [("Cookie", "session=sid-live")])
           Sample.env Sample.world "GET"); discriminate.
Defined.




Lemma status_hides_refresh_token_witness :
  let request := Sample.request "GET" "/auth/status" []
                   [("Cookie", "session=sid-live")] in
  (fetch request Sample.env Sample.world).1
  = (fetch request Sample.env
       (set_TOKENS (insert "sid-live" (Sample.record "another-token")) Sample.world)).1.
Proof.
  apply (@status_hides_refresh_token Sample.platform
           (Sample.request "GET" "/auth/status" [] [("Cookie", "session=sid-live")])
           Sample.env Sample.world
           (set_TOKENS (insert "sid-live" (Sample.record "another-token")) Sample.world)).
  - discriminate.
  - reflexivity.
  - intros sid Hsid. vm_compute in Hsid. injection Hsid as <-.
    vm_compute. reflexivity.
Defined.

Lemma token_hides_refresh_token_witness :
  let request := Sample.request "GET" "/auth/token" []
                   [("Cookie", "session=sid-live")] in
  (fetch request Sample.env
     (set_TOKENS (insert "sid-live" (Sample.record "rt-lost")) Sample.world)).1
  = (fetch request Sample.env
       (set_TOKENS (insert "sid-live" (Sample.record "rt-stale")) Sample.world)).1.
Proof.
  apply (@token_hides_refresh_token Sample.platform
           (Sample.request "GET" "/auth/token" [] [("Cookie", "session=sid-live")])
           Sample.env
           (set_TOKENS (insert "sid-live" (Sample.record "rt-lost")) Sample.world)
           (set_TOKENS (insert "sid-live" (Sample.record "rt-stale")) Sample.world)
           "sid-live" (Sample.record "rt-lost") (Sample.record "rt-stale")).
  - discriminate.
  - reflexivity.
  - vm_compute. reflexivity.
  - vm_compute. reflexivity.
  - vm_compute. reflexivity.
  - reflexivity.
Defined.

End Examples.
